(** * MSL ciphertext envelopes and the RSA crypto context

    A shallow embedding of [MslCiphertextEnvelope.js] and
    [RsaCryptoContext.js].  JavaScript values are an inductive type, objects
    are finite maps from property names to values, numbers are IEEE 754
    binary64 floats, and a callback that receives either a result or an error
    is the value such a delivery carries.  Of the six operations of the
    crypto context, [unwrap] comes last, with an outcome type of its own:
    it delivers a key handle and names three more error constants. *)

From Stdlib Require Import Floats NArith ZArith Lia Ascii String Strings.Byte.
From stdpp Require Import gmap strings list.

Local Open Scope string_scope.

(** ** JavaScript values *)

(** The values the modelled code handles.  A [Uint8Array] is kept apart from
    the other objects because the code hands it to the base64 and crypto
    collaborators; every other object is its own-property map. *)
#[warnings="-register-all"]
Inductive value : Type :=
| VUndefined
| VNull
| VBool (b : bool)
| VNum (n : float)
| VStr (s : string)
| VUint8Array (bytes : list byte)
| VObject (props : gmap string value).

(** The answers of the [typeof] operator on those values. *)
Inductive type_tag : Type :=
| TUndefined | TObject | TBoolean | TNumber | TString.

Definition typeof (v : value) : type_tag :=
  match v with
  | VUndefined => TUndefined
  | VNull => TObject
  | VBool _ => TBoolean
  | VNum _ => TNumber
  | VStr _ => TString
  | VUint8Array _ => TObject
  | VObject _ => TObject
  end.

Definition is_string (v : value) : bool :=
  match v with VStr _ => true | _ => false end.

Definition is_number (v : value) : bool :=
  match v with VNum _ => true | _ => false end.

(** [x !== x] on a number: true for NaN alone. *)
Definition is_NaN (n : float) : bool := negb (PrimFloat.eqb n n).

(** Truthiness, as [if (v)], [!v] and [a && b] read it: undefined, null,
    false, +0, -0, NaN and the empty string are falsy; every object is
    truthy, a zero-length [Uint8Array] included. *)
Definition ToBoolean (v : value) : bool :=
  match v with
  | VUndefined | VNull => false
  | VBool b => b
  | VNum n => negb (PrimFloat.eqb n 0 || is_NaN n)
  | VStr s => match s with EmptyString => false | String _ _ => true end
  | VUint8Array _ | VObject _ => true
  end.

(** ** Exceptions *)

(** The [MslError] constants the two files name. *)
Inductive MslError : Type :=
| JSON_PARSE_ERROR
| UNIDENTIFIED_CIPHERTEXT_ENVELOPE
| UNSUPPORTED_CIPHERTEXT_ENVELOPE
| UNIDENTIFIED_CIPHERSPEC
| CIPHERTEXT_ENVELOPE_PARSE_ERROR
| CIPHERTEXT_ENVELOPE_ENCODE_ERROR
| ENVELOPE_KEY_ID_MISMATCH
| ENCRYPT_NOT_SUPPORTED
| ENCRYPT_ERROR
| DECRYPT_NOT_SUPPORTED
| DECRYPT_ERROR
| WRAP_NOT_SUPPORTED
| WRAP_ERROR
| SIGN_NOT_SUPPORTED
| SIGNATURE_ERROR
| VERIFY_NOT_SUPPORTED.

(** What can be thrown.  The three [Msl...] constructors are the instances of
    [MslException]; messages are dropped, the cause of a crypto exception is
    kept. *)
#[warnings="-register-all"]
Inductive exn : Type :=
| MslCryptoException (error : MslError) (cause : option exn)
| MslEncodingException (error : MslError)
| MslInternalException
| TypeError
| SyntaxError
| OtherError.

Definition instanceof_MslException (e : exn) : bool :=
  match e with
  | MslCryptoException _ _ | MslEncodingException _ | MslInternalException => true
  | TypeError | SyntaxError | OtherError => false
  end.

Definition instanceof_MslEncodingException (e : exn) : bool :=
  match e with MslEncodingException _ => true | _ => false end.

Definition instanceof_SyntaxError (e : exn) : bool :=
  match e with SyntaxError => true | _ => false end.

(** The outcome of a function body run by [AsyncExecutor] that calls no
    asynchronous collaborator: the returned value goes to [callback.result],
    a thrown exception to [callback.error]. *)
Inductive completion (A : Type) : Type :=
| Return (a : A)
| Throw (e : exn).

Arguments Return {A} a.
Arguments Throw {A} e.

#[global] Instance completion_ret : MRet completion := fun A a => Return a.

(** Sequencing stops at the first exception, as a [throw] leaves the body. *)
#[global] Instance completion_bind : MBind completion := fun A B k c =>
  match c with
  | Return a => k a
  | Throw e => Throw e
  end.

(** [jsonObj[key]]: reading a property of undefined or null throws a
    [TypeError]; an object answers with its property or undefined; the other
    values have none of the properties the envelope code asks for. *)
Definition Get (v : value) (key : string) : completion value :=
  match v with
  | VUndefined | VNull => Throw TypeError
  | VObject props => Return (default VUndefined (props !! key))
  | VBool _ | VNum _ | VStr _ | VUint8Array _ => Return VUndefined
  end.

(** Modelled from the spec: the error taxonomy of section 7, which the source
    files leave to the [MslError] table (not among them). *)
Inductive ErrorClass : Type :=
| EncodingError
| CapabilityUnavailableError
| CryptoOperationError
| ProtocolMismatchError
| InternalError.

(** Modelled from the spec: section 7 sorts the faults by what went wrong;
    the source names each fault by its [MslError] constant. *)
Definition MslError_class (e : MslError) : ErrorClass :=
  match e with
  | JSON_PARSE_ERROR
  | CIPHERTEXT_ENVELOPE_PARSE_ERROR
  | CIPHERTEXT_ENVELOPE_ENCODE_ERROR => EncodingError
  | UNIDENTIFIED_CIPHERTEXT_ENVELOPE
  | UNSUPPORTED_CIPHERTEXT_ENVELOPE
  | UNIDENTIFIED_CIPHERSPEC
  | ENVELOPE_KEY_ID_MISMATCH => ProtocolMismatchError
  | ENCRYPT_NOT_SUPPORTED
  | DECRYPT_NOT_SUPPORTED
  | WRAP_NOT_SUPPORTED
  | SIGN_NOT_SUPPORTED
  | VERIFY_NOT_SUPPORTED => CapabilityUnavailableError
  | ENCRYPT_ERROR
  | DECRYPT_ERROR
  | WRAP_ERROR
  | SIGNATURE_ERROR => CryptoOperationError
  end.

Definition error_class (e : exn) : option ErrorClass :=
  match e with
  | MslCryptoException error _ => Some (MslError_class error)
  | MslEncodingException error => Some (MslError_class error)
  | MslInternalException => Some InternalError
  | TypeError | SyntaxError | OtherError => None
  end.

(** ** Base64 *)

(** Modelled from the spec: the base64 encode/decode collaborator
    ([base64$encode], [base64$decode]) is not among the source files; this is
    the standard alphabet with [=] padding (RFC 4648, section 4). *)
Definition base64_alphabet : list ascii :=
  list_ascii_of_string
    "ABCDEFGHIJKLMNOPQRSTUVWXYZabcdefghijklmnopqrstuvwxyz0123456789+/".

Definition base64_pad : ascii := "="%char.

Definition sextet_char (n : N) : ascii :=
  default base64_pad (base64_alphabet !! N.to_nat n).

Fixpoint index_from (c : ascii) (l : list ascii) (i : N) : option N :=
  match l with
  | [] => None
  | x :: rest => if Ascii.eqb x c then Some i else index_from c rest (N.succ i)
  end.

Definition char_sextet (c : ascii) : option N := index_from c base64_alphabet 0%N.

(** Three bytes make four sextets; one or two trailing bytes are padded. *)
Fixpoint rfc4648_encode (bytes : list byte) : string :=
  match bytes with
  | [] => ""
  | [a] =>
      let a := Byte.to_N a in
      String (sextet_char (a / 4)) (String (sextet_char ((a mod 4) * 16)) "==")
  | [a; b] =>
      let a := Byte.to_N a in
      let b := Byte.to_N b in
      String (sextet_char (a / 4))
        (String (sextet_char ((a mod 4) * 16 + b / 16))
           (String (sextet_char ((b mod 16) * 4)) "="))
  | a :: b :: c :: rest =>
      let a := Byte.to_N a in
      let b := Byte.to_N b in
      let c := Byte.to_N c in
      String (sextet_char (a / 4))
        (String (sextet_char ((a mod 4) * 16 + b / 16))
           (String (sextet_char ((b mod 16) * 4 + c / 64))
              (String (sextet_char (c mod 64)) (rfc4648_encode rest))))
  end%N.

(** Four characters at a time; padding is accepted in the last group only. *)
Fixpoint rfc4648_decode (text : string) : option (list byte) :=
  match text with
  | "" => Some []
  | String c1 (String c2 (String c3 (String c4 rest))) =>
      s1 ← char_sextet c1;
      s2 ← char_sextet c2;
      b1 ← Byte.of_N (s1 * 4 + s2 / 16);
      if Ascii.eqb c3 base64_pad then
        if Ascii.eqb c4 base64_pad && bool_decide (rest = "") then Some [b1] else None
      else
        s3 ← char_sextet c3;
        b2 ← Byte.of_N ((s2 mod 16) * 16 + s3 / 4);
        if Ascii.eqb c4 base64_pad then
          if bool_decide (rest = "") then Some [b1; b2] else None
        else
          s4 ← char_sextet c4;
          b3 ← Byte.of_N ((s3 mod 4) * 64 + s4);
          tail ← rfc4648_decode rest;
          Some (b1 :: b2 :: b3 :: tail)
  | _ => None
  end%N.

(** ** Collaborators of the envelope codec *)

(** What [MslCiphertextEnvelope.js] takes from the rest of the library and
    from the language runtime, none of it among the source files:
    [MslConstants$CipherSpec] as its (name, value) entries in enumeration
    order, [MslConstants$CipherSpec$fromString] (no answer stands for a falsy
    one), the two base64 functions, and the number that [==] compares with a
    number when the other operand is a string or an object (NaN when the
    conversion yields none). *)
Class EnvelopeCollaborators : Type := {
  MslConstants_CipherSpec : list (string * string);
  MslConstants_CipherSpec_fromString : string -> option string;
  base64_encode : value -> string;
  base64_decode : string -> completion (list byte);
  ToNumber : value -> float;
}.

(** Modelled from the spec: section 3 lists one recognized cipher
    specification, AES-CBC with PKCS#5 padding; its text is the one in the
    source's table of supported specifications. *)
Definition CipherSpec_table : list (string * string) :=
  [("AES_CBC_PKCS5Padding", "AES/CBC/PKCS5Padding")].

(** Modelled from the spec: a cipher-spec string maps to a recognized value
    when it is one of the enumeration's values (section 4.1). *)
Definition CipherSpec_fromString (table : list (string * string)) (s : string) : option string :=
  if existsb (String.eqb s) (map snd table) then Some s else None.

(** Modelled from the spec: base64 of a [Uint8Array]; a value without bytes
    has nothing to encode. *)
Definition rfc4648_encode_value (v : value) : string :=
  match v with
  | VUint8Array bytes => rfc4648_encode bytes
  | _ => ""
  end.

(** Modelled from the spec: decoding throws on text that is not base64. *)
Definition rfc4648_decode_text (text : string) : completion (list byte) :=
  match rfc4648_decode text with
  | Some bytes => Return bytes
  | None => Throw OtherError
  end.

(** The number a text of decimal digits denotes (the empty text is 0);
    other texts are outside this reading and give NaN. *)
Fixpoint digits_value (text : string) (acc : N) : option N :=
  match text with
  | "" => Some acc
  | String c rest =>
      let d := N_of_ascii c in
      if (48 <=? d)%N && (d <=? 57)%N
      then digits_value rest (acc * 10 + (d - 48))%N
      else None
  end.

Definition float_of_N (n : N) : float := PrimFloat.of_uint63 (Uint63.of_Z (Z.of_N n)).

Definition decimal_ToNumber (v : value) : float :=
  match v with
  | VStr s => match digits_value s 0%N with Some n => float_of_N n | None => nan end
  | VUint8Array [] => 0%float
  | VUint8Array [b] => float_of_N (Byte.to_N b)
  | _ => nan
  end.

(** The collaborators the closed examples run with. *)
Definition reference_envelope_collaborators : EnvelopeCollaborators := {|
  MslConstants_CipherSpec := CipherSpec_table;
  MslConstants_CipherSpec_fromString := CipherSpec_fromString CipherSpec_table;
  base64_encode := rfc4648_encode_value;
  base64_decode := rfc4648_decode_text;
  ToNumber := decimal_ToNumber;
|}.

(** ** MslCiphertextEnvelope.js *)

Definition KEY_VERSION : string := "version".
Definition KEY_KEY_ID : string := "keyid".
Definition KEY_CIPHERSPEC : string := "cipherspec".
Definition KEY_IV : string := "iv".
Definition KEY_CIPHERTEXT : string := "ciphertext".
Definition KEY_SHA256 : string := "sha256".

(** [MslCiphertextEnvelope$Version]. *)
Inductive Version : Type := V1 | V2.

Definition Version_number (v : Version) : float :=
  match v with V1 => 1%float | V2 => 2%float end.

(** The properties the constructor defines.  [keyId] and [cipherSpec] are a
    string or null; [iv] is whatever the caller handed over; [version] is one
    of the two enumeration values, the only ones the constructor assigns. *)
Record MslCiphertextEnvelope : Type := {
  version : Version;
  keyId : option string;
  cipherSpec : option string;
  iv : value;
  ciphertext : list byte;
}.

(** The byte sequence of an initialization vector slot, when it holds one. *)
Definition iv_bytes (iv : value) : option (list byte) :=
  match iv with
  | VUint8Array bytes => Some bytes
  | _ => None
  end.

(** A string-or-null property as a value. *)
Definition nullable (s : option string) : value :=
  match s with Some s => VStr s | None => VNull end.

(** The text of a value that [typeof] has shown to be a string. *)
Definition text_of (v : value) : string :=
  match v with VStr s => s | _ => "" end.

(** [x == n], [n] a number. *)
Definition loose_eq_number `{EnvelopeCollaborators} (v : value) (n : float) : bool :=
  match v with
  | VUndefined | VNull => false
  | VBool b => PrimFloat.eqb (if b then 1 else 0) n
  | VNum m => PrimFloat.eqb m n
  | VStr _ | VUint8Array _ | VObject _ => PrimFloat.eqb (ToNumber v) n
  end.

(** [x === n], [n] a number, as [switch] compares. *)
Definition strict_eq_number (v : value) (n : float) : bool :=
  match v with
  | VNum m => PrimFloat.eqb m n
  | _ => false
  end.

(** [x !== x]. *)
Definition strict_ne_self (v : value) : bool :=
  match v with
  | VNum n => is_NaN n
  | _ => false
  end.

Section Envelope.
Context `{EnvelopeCollaborators}.

(** The loop of the constructor over [MslConstants$CipherSpec]: the first
    entry whose value equals the first argument turns the envelope into a
    version 2 one and ends the loop. *)
Fixpoint init_loop (entries : list (string * string)) (keyIdOrSpec : string)
    (state : Version * option string * option string)
    : Version * option string * option string :=
  match entries with
  | [] => state
  | (_, spec) :: rest =>
      if String.eqb spec keyIdOrSpec
      then (V2, None, Some keyIdOrSpec)
      else init_loop rest keyIdOrSpec state
  end.

(** The constructor; its body returns [this], which goes to the callback. *)
Definition MslCiphertextEnvelope_init (keyIdOrSpec : string) (iv : value)
    (ciphertext : list byte) : completion MslCiphertextEnvelope :=
  let '(version, keyId, cipherSpec) :=
    init_loop MslConstants_CipherSpec keyIdOrSpec (V1, Some keyIdOrSpec, None) in
  Return {| version := version; keyId := keyId; cipherSpec := cipherSpec;
            iv := iv; ciphertext := ciphertext |}.

Definition MslCiphertextEnvelope_create (keyIdOrCipherSpec : string) (iv : value)
    (ciphertext : list byte) : completion MslCiphertextEnvelope :=
  MslCiphertextEnvelope_init keyIdOrCipherSpec iv ciphertext.

(** [if (this.iv) result[KEY_IV] = base64$encode(this.iv)]. *)
Definition put_iv (iv : value) (result : gmap string value) : gmap string value :=
  if ToBoolean iv then <[KEY_IV := VStr (base64_encode iv)]> result else result.

(** [toJSON].  The [default] branch of its [switch] needs a version that is
    neither enumeration value, which [Version] has not. *)
Definition toJSON (this : MslCiphertextEnvelope) : gmap string value :=
  let result : gmap string value := ∅ in
  match version this with
  | V1 =>
      let result := <[KEY_KEY_ID := nullable (keyId this)]> result in
      let result := put_iv (iv this) result in
      let result :=
        <[KEY_CIPHERTEXT := VStr (base64_encode (VUint8Array (ciphertext this)))]> result in
      <[KEY_SHA256 := VStr "AA=="]> result
  | V2 =>
      let result := <[KEY_VERSION := VNum (Version_number (version this))]> result in
      let result := <[KEY_CIPHERSPEC := nullable (cipherSpec this)]> result in
      let result := put_iv (iv this) result in
      <[KEY_CIPHERTEXT := VStr (base64_encode (VUint8Array (ciphertext this)))]> result
  end.

(** The version [parse] goes by: the hint when there is one, else the
    object's own [version], with version 1 for anything that is not a
    usable number. *)
Definition determine_version (jsonObj version : value) : completion value :=
  if negb (ToBoolean version) then
    version ← Get jsonObj KEY_VERSION;
    if negb (ToBoolean version) || negb (is_number version) || strict_ne_self version
    then Return (VNum (Version_number V1))
    else
      let identified :=
        existsb (fun v => loose_eq_number version (Version_number v)) [V1; V2] in
      if negb identified
      then Throw (MslCryptoException UNIDENTIFIED_CIPHERTEXT_ENVELOPE None)
      else Return version
  else Return version.

(** The [case] the [switch] over the version takes. *)
Definition switch_version (version : value) : completion Version :=
  if strict_eq_number version (Version_number V1) then Return V1
  else if strict_eq_number version (Version_number V2) then Return V2
  else Throw (MslCryptoException UNSUPPORTED_CIPHERTEXT_ENVELOPE None).

(** The version an object is parsed as, under a hint or without one. *)
Definition envelope_version (jsonObj version : value) : completion Version :=
  version ← determine_version jsonObj version;
  switch_version version.

(** The body of the [switch]: field checks, then the key ID or the cipher
    specification that goes to the constructor. *)
Definition verify_values (jsonObj version keyId cipherSpec iv ciphertext sha256 : value)
    : completion string :=
  case ← switch_version version;
  match case with
  | V1 =>
      if negb (is_string keyId)
         || (ToBoolean iv && negb (is_string iv))
         || negb (is_string ciphertext)
         || negb (is_string sha256)
      then Throw (MslEncodingException JSON_PARSE_ERROR)
      else Return (text_of keyId)
  | V2 =>
      v ← Get jsonObj KEY_VERSION;
      if negb (loose_eq_number v (Version_number V2))
      then Throw (MslCryptoException UNIDENTIFIED_CIPHERTEXT_ENVELOPE None)
      else if negb (is_string cipherSpec)
              || (ToBoolean iv && negb (is_string iv))
              || negb (is_string ciphertext)
      then Throw (MslEncodingException JSON_PARSE_ERROR)
      else
        match MslConstants_CipherSpec_fromString (text_of cipherSpec) with
        | Some cipherSpec =>
            if negb (ToBoolean (VStr cipherSpec))
            then Throw (MslCryptoException UNIDENTIFIED_CIPHERSPEC None)
            else Return cipherSpec
        | None => Throw (MslCryptoException UNIDENTIFIED_CIPHERSPEC None)
        end
  end.

(** The [try] block that turns the base64 fields into byte arrays; what it
    catches comes back as the cause of an envelope-parse error. *)
Definition decode_values (iv ciphertext : value) : completion (value * list byte) :=
  let decoded :=
    iv ← (if ToBoolean iv
          then bytes ← base64_decode (text_of iv); Return (VUint8Array bytes)
          else Return iv);
    ciphertext ← base64_decode (text_of ciphertext);
    Return (iv, ciphertext) in
  match decoded with
  | Return r => Return r
  | Throw e => Throw (MslCryptoException CIPHERTEXT_ENVELOPE_PARSE_ERROR (Some e))
  end.

Definition MslCiphertextEnvelope_parse (jsonObj version : value)
    : completion MslCiphertextEnvelope :=
  keyId ← Get jsonObj KEY_KEY_ID;
  cipherSpec ← Get jsonObj KEY_CIPHERSPEC;
  iv ← Get jsonObj KEY_IV;
  ciphertext ← Get jsonObj KEY_CIPHERTEXT;
  sha256 ← Get jsonObj KEY_SHA256;
  version ← determine_version jsonObj version;
  keyIdOrSpec ← verify_values jsonObj version keyId cipherSpec iv ciphertext sha256;
  '(iv, ciphertext) ← decode_values iv ciphertext;
  MslCiphertextEnvelope_init keyIdOrSpec iv ciphertext.

End Envelope.

(** ** Collaborators of the crypto context *)

(** The asynchronous crypto-primitive provider, [mslCrypto]: each call is
    indexed by what its promise resolves to. *)
Inductive WebCryptoAlgorithm : Type := RSAES | RSA_OAEP | RSASSA_SHA256.

(** A transform or algorithm slot of a context: the string [NULL_OP] or one
    of the algorithm objects, which no [==] confuses with that string. *)
Inductive transform_slot : Type :=
| NULL_OP
| Algorithm (a : WebCryptoAlgorithm).

Definition is_NULL_OP (t : transform_slot) : bool :=
  match t with NULL_OP => true | Algorithm _ => false end.

Inductive mslCrypto : Type -> Type :=
| mslCrypto_encrypt (algorithm : transform_slot) (key : value) (data : list byte)
    : mslCrypto (list byte)
| mslCrypto_decrypt (algorithm : transform_slot) (key : value) (data : list byte)
    : mslCrypto (list byte)
| mslCrypto_wrapKey (format : string) (keyToWrap wrappingKey : value)
    (wrappingAlgorithm : transform_slot) : mslCrypto (list byte)
| mslCrypto_sign (algorithm : transform_slot) (key : value) (data : list byte)
    : mslCrypto (list byte)
| mslCrypto_verify (algorithm : transform_slot) (key : value)
    (signature data : list byte) : mslCrypto bool.

(** What an operation of the context does with its callback: deliver a
    result, deliver an error, or hand a call to the provider together with
    the two continuations of its promise. *)
Inductive outcome (A : Type) : Type :=
| Result (a : A)
| Error (e : exn)
| Await {R : Type} (call : mslCrypto R) (oncomplete : R -> outcome A) (onerror : outcome A).

Arguments Result {A} a.
Arguments Error {A} e.
Arguments Await {A R} call oncomplete onerror.

(** An outcome that reached the callback without a call to the provider. *)
Definition delivered {A : Type} (o : outcome A) : bool :=
  match o with
  | Result _ | Error _ => true
  | Await _ _ _ => false
  end.

(** What [RsaCryptoContext.js] takes from the runtime and from the signature
    envelope codec, none of it among the source files: [JSON.stringify],
    [JSON.parse], the text encoder and decoder at the default charset, and
    the signature envelope's [create] (answering with the envelope's bytes)
    and [parse] at version 1 (answering with the signature it carries). *)
Class ContextCollaborators : Type := {
  JSON_stringify : value -> completion string;
  JSON_parse : string -> completion value;
  textEncoding_getBytes : string -> completion (list byte);
  textEncoding_getString : list byte -> completion string;
  MslSignatureEnvelope_create : list byte -> completion (list byte);
  MslSignatureEnvelope_parse : list byte -> completion (list byte);
}.

(** ** RsaCryptoContext.js *)

(** [RsaCryptoContext$Mode]. *)
Inductive Mode : Type :=
| ENCRYPT_DECRYPT_OAEP
| ENCRYPT_DECRYPT_PKCS1
| WRAP_UNWRAP_OAEP
| WRAP_UNWRAP_PKCS1
| SIGN_VERIFY.

Definition Mode_eqb (a b : Mode) : bool :=
  match a, b with
  | ENCRYPT_DECRYPT_OAEP, ENCRYPT_DECRYPT_OAEP
  | ENCRYPT_DECRYPT_PKCS1, ENCRYPT_DECRYPT_PKCS1
  | WRAP_UNWRAP_OAEP, WRAP_UNWRAP_OAEP
  | WRAP_UNWRAP_PKCS1, WRAP_UNWRAP_PKCS1
  | SIGN_VERIFY, SIGN_VERIFY => true
  | _, _ => false
  end.

(** A key handle ([PublicKey], [PrivateKey], [CipherKey]): the code reads
    its [rawKey] only. *)
Record KeyHandle : Type := { rawKey : value }.

Record RsaCryptoContext : Type := {
  id : string;
  privateKey : value;
  publicKey : value;
  transform : transform_slot;
  wrapTransform : transform_slot;
  algo : transform_slot;
}.

(** [if (key) key = key.rawKey], on a handle or null. *)
Definition extract_rawKey (key : option KeyHandle) : value :=
  match key with
  | Some handle => rawKey handle
  | None => VNull
  end.

(** The constructor ([ctx], the MSL context, is not read). *)
Definition RsaCryptoContext_init (id : string) (privateKey publicKey : option KeyHandle)
    (mode : Mode) : RsaCryptoContext :=
  let privateKey := extract_rawKey privateKey in
  let publicKey := extract_rawKey publicKey in
  let transform :=
    if Mode_eqb mode ENCRYPT_DECRYPT_PKCS1 then Algorithm RSAES
    else if Mode_eqb mode ENCRYPT_DECRYPT_OAEP then Algorithm RSA_OAEP
    else NULL_OP in
  let wrapTransform :=
    if Mode_eqb mode WRAP_UNWRAP_PKCS1 then Algorithm RSAES
    else if Mode_eqb mode WRAP_UNWRAP_OAEP then Algorithm RSA_OAEP
    else NULL_OP in
  let algo := if Mode_eqb mode SIGN_VERIFY then Algorithm RSASSA_SHA256 else NULL_OP in
  {| id := id; privateKey := privateKey; publicKey := publicKey;
     transform := transform; wrapTransform := wrapTransform; algo := algo |}.

(** [envelope.keyId != self.id]: null differs from every string. *)
Definition keyId_differs (keyId : option string) (id : string) : bool :=
  match keyId with
  | Some k => negb (String.eqb k id)
  | None => true
  end.

Section Operations.
Context `{EnvelopeCollaborators} `{ContextCollaborators}.

Definition encrypt (self : RsaCryptoContext) (data : list byte) : outcome (list byte) :=
  if is_NULL_OP (transform self) then Result data
  else if negb (ToBoolean (publicKey self))
  then Error (MslCryptoException ENCRYPT_NOT_SUPPORTED None)
  else if Nat.eqb (List.length data) 0 then Result data
  else
    let oncomplete (ciphertext : list byte) : outcome (list byte) :=
      match MslCiphertextEnvelope_create (id self) VNull ciphertext with
      | Return envelope =>
          match (json ← JSON_stringify (VObject (toJSON envelope));
                 textEncoding_getBytes json) with
          | Return bytes => Result bytes
          | Throw e => Error (MslCryptoException ENCRYPT_ERROR (Some e))
          end
      | Throw e =>
          Error (if negb (instanceof_MslException e)
                 then MslCryptoException ENCRYPT_ERROR (Some e)
                 else e)
      end in
    let onerror : outcome (list byte) := Error (MslCryptoException ENCRYPT_ERROR None) in
    Await (mslCrypto_encrypt (transform self) (publicKey self) data) oncomplete onerror.

Definition decrypt (self : RsaCryptoContext) (data : list byte) : outcome (list byte) :=
  if is_NULL_OP (transform self) then Result data
  else if negb (ToBoolean (privateKey self))
  then Error (MslCryptoException DECRYPT_NOT_SUPPORTED None)
  else if Nat.eqb (List.length data) 0 then Result data
  else
    match (json ← textEncoding_getString data; JSON_parse json) with
    | Throw e =>
        if instanceof_SyntaxError e
        then Error (MslCryptoException CIPHERTEXT_ENVELOPE_PARSE_ERROR (Some e))
        else Error (MslCryptoException DECRYPT_ERROR (Some e))
    | Return jo =>
        match MslCiphertextEnvelope_parse jo (VNum (Version_number V1)) with
        | Return envelope =>
            if keyId_differs (keyId envelope) (id self)
            then Error (MslCryptoException ENVELOPE_KEY_ID_MISMATCH None)
            else
              let oncomplete (plaintext : list byte) : outcome (list byte) :=
                Result plaintext in
              let onerror : outcome (list byte) :=
                Error (MslCryptoException DECRYPT_ERROR None) in
              Await (mslCrypto_decrypt (transform self) (privateKey self)
                       (ciphertext envelope)) oncomplete onerror
        | Throw e =>
            let e := if instanceof_MslEncodingException e
                     then MslCryptoException CIPHERTEXT_ENVELOPE_ENCODE_ERROR (Some e)
                     else e in
            let e := if negb (instanceof_MslException e)
                     then MslCryptoException DECRYPT_ERROR (Some e)
                     else e in
            Error e
        end
    end.

Definition wrap (self : RsaCryptoContext) (key : KeyHandle) : outcome (list byte) :=
  if is_NULL_OP (wrapTransform self) || negb (ToBoolean (publicKey self))
  then Error (MslCryptoException WRAP_NOT_SUPPORTED None)
  else
    let oncomplete (result : list byte) : outcome (list byte) := Result result in
    let onerror : outcome (list byte) := Error (MslCryptoException WRAP_ERROR None) in
    Await (mslCrypto_wrapKey "jwk" (rawKey key) (publicKey self) (wrapTransform self))
      oncomplete onerror.

Definition sign (self : RsaCryptoContext) (data : list byte) : outcome (list byte) :=
  if is_NULL_OP (algo self) then Result []
  else if negb (ToBoolean (privateKey self))
  then Error (MslCryptoException SIGN_NOT_SUPPORTED None)
  else
    let oncomplete (hash : list byte) : outcome (list byte) :=
      match MslSignatureEnvelope_create hash with
      | Return bytes => Result bytes
      | Throw e => Error e
      end in
    let onerror : outcome (list byte) := Error (MslCryptoException SIGNATURE_ERROR None) in
    Await (mslCrypto_sign (algo self) (privateKey self) data) oncomplete onerror.

Definition verify (self : RsaCryptoContext) (data signature : list byte) : outcome bool :=
  if is_NULL_OP (algo self) then Result true
  else if negb (ToBoolean (publicKey self))
  then Error (MslCryptoException VERIFY_NOT_SUPPORTED None)
  else
    match MslSignatureEnvelope_parse signature with
    | Return envelope_signature =>
        let oncomplete (valid : bool) : outcome bool := Result valid in
        let onerror : outcome bool := Error (MslCryptoException SIGNATURE_ERROR None) in
        Await (mslCrypto_verify (algo self) (publicKey self) envelope_signature data)
          oncomplete onerror
    | Throw e => Error e
    end.

End Operations.

(** ** A runtime for the closed examples *)

Definition double_quote : ascii := "034"%char.

Definition quoted (s : string) : string :=
  String double_quote (s ++ String double_quote "").

(** JSON text of an object whose members are plain strings (no quote or
    escape inside), which is what a version 1 envelope serializes to; other
    values are outside this printer. *)
Definition flat_JSON_stringify (v : value) : completion string :=
  match v with
  | VObject props =>
      let member (kv : string * value) : option string :=
        match kv.2 with
        | VStr s => Some (quoted kv.1 ++ ":" ++ quoted s)
        | _ => None
        end in
      match mapM member (map_to_list props) with
      | Some members => Return ("{" ++ String.concat "," members ++ "}")
      | None => Throw OtherError
      end
  | _ => Throw OtherError
  end.

(** The text up to the next double quote, and what follows that quote. *)
Fixpoint read_quoted (text : string) : option (string * string) :=
  match text with
  | "" => None
  | String c rest =>
      if Ascii.eqb c double_quote then Some ("", rest)
      else '(s, rest) ← read_quoted rest; Some (String c s, rest)
  end.

(** The members of a flat object, after its opening brace. *)
Fixpoint read_members (fuel : nat) (text : string) (props : gmap string value)
    : option (gmap string value) :=
  match fuel, text with
  | S fuel, String c rest =>
      if Ascii.eqb c double_quote then
        '(key, rest) ← read_quoted rest;
        match rest with
        | String ":" (String c rest) =>
            if Ascii.eqb c double_quote then
              '(s, rest) ← read_quoted rest;
              let props := <[key := VStr s]> props in
              match rest with
              | "}" => Some props
              | String "," rest => read_members fuel rest props
              | _ => None
              end
            else None
        | _ => None
        end
      else None
  | _, _ => None
  end.

(** The inverse of [flat_JSON_stringify]; any other text is a syntax error. *)
Definition flat_JSON_parse (text : string) : completion value :=
  match text with
  | "{}" => Return (VObject ∅)
  | String "{" rest =>
      match read_members (String.length rest) rest ∅ with
      | Some props => Return (VObject props)
      | None => Throw SyntaxError
      end
  | _ => Throw SyntaxError
  end.

(** The collaborators the closed examples of the crypto context run with:
    flat JSON, one character per byte, and a version 1 signature envelope
    that is the bare signature. *)
Definition reference_context_collaborators : ContextCollaborators := {|
  JSON_stringify := flat_JSON_stringify;
  JSON_parse := flat_JSON_parse;
  textEncoding_getBytes := fun s => Return (list_byte_of_string s);
  textEncoding_getString := fun bytes => Return (string_of_list_byte bytes);
  MslSignatureEnvelope_create := fun signature => Return signature;
  MslSignatureEnvelope_parse := fun bytes => Return bytes;
|}.

(** A handle on some key object, for the closed examples. *)
Definition sample_key : KeyHandle := {| rawKey := VObject ∅ |}.

(** ** Observations on outcomes *)

Definition instanceof_MslCryptoException (e : exn) : bool :=
  match e with MslCryptoException _ _ => true | _ => false end.

(** Every error an outcome can deliver, now or on either continuation of a
    call to the provider, whatever the provider answers, satisfies [P]. *)
Fixpoint every_error {A : Type} (P : exn → Prop) (o : outcome A) : Prop :=
  match o with
  | Result _ => True
  | Error e => P e
  | Await _ oncomplete onerror =>
      (∀ r, every_error P (oncomplete r)) ∧ every_error P onerror
  end.

(** ** RsaCryptoContext.js: unwrap *)

(** The [MslError] constants [unwrap] names. *)
Inductive UnwrapMslError : Type :=
| UNWRAP_NOT_SUPPORTED
| UNWRAP_ERROR
| UNSUPPORTED_KEY.

(** What [unwrap] hands to [callback.error]: a crypto exception of its own,
    or whatever a collaborator or the runtime threw. *)
Inductive unwrap_exn : Type :=
| UnwrapCryptoException (error : UnwrapMslError)
| Thrown (e : exn).

(** The arguments of [mslCrypto.unwrapKey]; [algo] and [usages] go through
    unread. *)
Record unwrapKey_call : Type := {
  unwrap_format : string;
  unwrap_data : list byte;
  unwrap_key : value;
  unwrap_transform : transform_slot;
  unwrap_algo : value;
  unwrap_extractable : bool;
  unwrap_usages : value;
}.

(** What [unwrap] does with its callback; the provider resolves with a raw
    key. *)
Inductive unwrap_outcome : Type :=
| UnwrapResult (key : KeyHandle)
| UnwrapError (e : unwrap_exn)
| UnwrapAwait (call : unwrapKey_call) (oncomplete : value → unwrap_outcome)
    (onerror : unwrap_outcome).

(** The key constructors [CipherKey$create], [PublicKey$create] and
    [PrivateKey$create], none of them among the source files: each is handed
    the raw key and the callback. *)
Class KeyCollaborators : Type := {
  CipherKey_create : value → completion KeyHandle;
  PublicKey_create : value → completion KeyHandle;
  PrivateKey_create : value → completion KeyHandle;
}.

(** [x === s], [s] a string, as [switch] compares. *)
Definition strict_eq_string (v : value) (s : string) : bool :=
  match v with
  | VStr t => String.eqb t s
  | _ => false
  end.

Section Unwrap.
Context `{KeyCollaborators}.

(** A key constructor was given the callback itself. *)
Definition deliver_key (c : completion KeyHandle) : unwrap_outcome :=
  match c with
  | Return key => UnwrapResult key
  | Throw e => UnwrapError (Thrown e)
  end.

Definition constructKey (rawKey : value) : unwrap_outcome :=
  match Get rawKey "type" with
  | Throw e => UnwrapError (Thrown e)
  | Return type =>
      if strict_eq_string type "secret" then deliver_key (CipherKey_create rawKey)
      else if strict_eq_string type "public" then deliver_key (PublicKey_create rawKey)
      else if strict_eq_string type "private" then deliver_key (PrivateKey_create rawKey)
      else UnwrapError (UnwrapCryptoException UNSUPPORTED_KEY)
  end.

Definition unwrap (self : RsaCryptoContext) (data : list byte) (algo usages : value)
    : unwrap_outcome :=
  if is_NULL_OP (wrapTransform self) || negb (ToBoolean (privateKey self))
  then UnwrapError (UnwrapCryptoException UNWRAP_NOT_SUPPORTED)
  else
    let oncomplete := constructKey in
    let onerror := UnwrapError (UnwrapCryptoException UNWRAP_ERROR) in
    UnwrapAwait {| unwrap_format := "jwk"; unwrap_data := data;
                   unwrap_key := privateKey self;
                   unwrap_transform := wrapTransform self;
                   unwrap_algo := algo; unwrap_extractable := false;
                   unwrap_usages := usages |}
      oncomplete onerror.

End Unwrap.

(** Key constructors for the closed examples: a handle on the raw key. *)
Definition reference_key_collaborators : KeyCollaborators := {|
  CipherKey_create := fun rawKey => Return {| rawKey := rawKey |};
  PublicKey_create := fun rawKey => Return {| rawKey := rawKey |};
  PrivateKey_create := fun rawKey => Return {| rawKey := rawKey |};
|}.

(** The JSON text of a version 1 envelope with the given key ID, no vector
    and the ciphertext [1], members in the order the reference printer
    writes them. *)
Definition sample_envelope_text (k : string) : string :=
  "{" ++ quoted "keyid" ++ ":" ++ quoted k ++ ","
      ++ quoted "sha256" ++ ":" ++ quoted "AA==" ++ ","
      ++ quoted "ciphertext" ++ ":" ++ quoted "AQ==" ++ "}".

(** * Properties *)

(** ** Base64 round trip *)

Lemma sextet_table :
  forallb (fun i => let n := N.of_nat i in
     match char_sextet (sextet_char n) with Some m => N.eqb m n | None => false end
     && negb (Ascii.eqb (sextet_char n) base64_pad)) (seq 0 64) = true.
Proof. vm_compute. reflexivity. Qed.

Lemma sextet_char_inv (n : N) :
  (n < 64)%N → char_sextet (sextet_char n) = Some n ∧ Ascii.eqb (sextet_char n) base64_pad = false.
Proof.
  intros Hn.
  pose proof sextet_table as Ht.
  rewrite forallb_forall in Ht.
  specialize (Ht (N.to_nat n)).
  rewrite N2Nat.id in Ht. cbv zeta in Ht.
  assert (Hin : In (N.to_nat n) (seq 0 64)) by (apply in_seq; lia).
  apply Ht in Hin. apply andb_true_iff in Hin as [H1 H2].
  destruct (char_sextet (sextet_char n)) as [m|]; [|discriminate].
  apply N.eqb_eq in H1. subst m. split; [done|].
  by apply negb_true_iff in H2.
Qed.

Lemma byte_bound (b : byte) : (Byte.to_N b < 256)%N.
Proof. pose proof (Byte.to_N_bounded b). lia. Qed.

Ltac euclid := Z.to_euclidean_division_equations; lia.

Ltac sextet_step e :=
  let H := fresh in
  destruct (sextet_char_inv e) as [-> H]; [zify; euclid|]; try rewrite H; clear H.

Ltac byte_step e b :=
  replace e with (Byte.to_N b) by (zify; euclid); rewrite Byte.of_to_N.

Lemma rfc4648_roundtrip_le (n : nat) (bytes : list byte) :
  (List.length bytes ≤ n)%nat → rfc4648_decode (rfc4648_encode bytes) = Some bytes.
Proof.
  revert bytes. induction n as [|n IH]; intros bytes Hlen.
  - destruct bytes; [done | simpl in Hlen; lia].
  - destruct bytes as [|a [|b [|c rest]]]; [done | | | ].
    + pose proof (byte_bound a) as Ha.
      cbn [rfc4648_encode rfc4648_decode].
      sextet_step (Byte.to_N a / 4)%N.
      sextet_step (Byte.to_N a mod 4 * 16)%N.
      cbn [mbind option_bind].
      byte_step (Byte.to_N a / 4 * 4 + Byte.to_N a mod 4 * 16 / 16)%N a.
      reflexivity.
    + pose proof (byte_bound a) as Ha. pose proof (byte_bound b) as Hb.
      cbn [rfc4648_encode rfc4648_decode].
      sextet_step (Byte.to_N a / 4)%N.
      sextet_step (Byte.to_N a mod 4 * 16 + Byte.to_N b / 16)%N.
      cbn [mbind option_bind].
      byte_step (Byte.to_N a / 4 * 4 + (Byte.to_N a mod 4 * 16 + Byte.to_N b / 16) / 16)%N a.
      cbn [mbind option_bind].
      sextet_step (Byte.to_N b mod 16 * 4)%N.
      cbn [mbind option_bind].
      byte_step ((Byte.to_N a mod 4 * 16 + Byte.to_N b / 16) mod 16 * 16 + Byte.to_N b mod 16 * 4 / 4)%N b.
      reflexivity.
    + pose proof (byte_bound a) as Ha. pose proof (byte_bound b) as Hb.
      pose proof (byte_bound c) as Hc.
      cbn [rfc4648_encode rfc4648_decode].
      sextet_step (Byte.to_N a / 4)%N.
      sextet_step (Byte.to_N a mod 4 * 16 + Byte.to_N b / 16)%N.
      cbn [mbind option_bind].
      byte_step (Byte.to_N a / 4 * 4 + (Byte.to_N a mod 4 * 16 + Byte.to_N b / 16) / 16)%N a.
      cbn [mbind option_bind].
      sextet_step (Byte.to_N b mod 16 * 4 + Byte.to_N c / 64)%N.
      cbn [mbind option_bind].
      byte_step ((Byte.to_N a mod 4 * 16 + Byte.to_N b / 16) mod 16 * 16
                 + (Byte.to_N b mod 16 * 4 + Byte.to_N c / 64) / 4)%N b.
      cbn [mbind option_bind].
      sextet_step (Byte.to_N c mod 64)%N.
      cbn [mbind option_bind].
      byte_step ((Byte.to_N b mod 16 * 4 + Byte.to_N c / 64) mod 4 * 64 + Byte.to_N c mod 64)%N c.
      cbn [mbind option_bind].
      rewrite IH; [reflexivity | simpl in Hlen; lia].
Qed.

Lemma rfc4648_roundtrip (bytes : list byte) :
  rfc4648_decode (rfc4648_encode bytes) = Some bytes.
Proof. by apply (rfc4648_roundtrip_le (List.length bytes)). Qed.

Lemma rfc4648_encode_empty (bytes : list byte) :
  rfc4648_encode bytes = "" → bytes = [].
Proof. destruct bytes as [|a [|b [|c rest]]]; [done | discriminate ..]. Qed.

Lemma rfc4648_decode_text_encode (bytes : list byte) :
  rfc4648_decode_text (rfc4648_encode_value (VUint8Array bytes)) = Return bytes.
Proof. unfold rfc4648_decode_text. cbn. by rewrite rfc4648_roundtrip. Qed.

(** ** The envelope codec *)

Section EnvelopeProperties.
Context `{EnvelopeCollaborators}.

Lemma init_loop_hit entries k state :
  In k (map snd entries) → init_loop entries k state = (V2, None, Some k).
Proof.
  induction entries as [|[name spec] rest IH]; simpl; [done|].
  intros [Heq | Hin].
  - subst spec. by rewrite String.eqb_refl.
  - destruct (String.eqb spec k); [done | by apply IH].
Qed.

Lemma init_loop_miss entries k state :
  ¬ In k (map snd entries) → init_loop entries k state = state.
Proof.
  induction entries as [|[name spec] rest IH]; simpl; [done|].
  intros Hnot.
  destruct (String.eqb spec k) eqn:E.
  - apply String.eqb_eq in E. tauto.
  - apply IH. tauto.
Qed.

Lemma init_key_id k iv ct :
  ¬ In k (map snd MslConstants_CipherSpec) →
  MslCiphertextEnvelope_init k iv ct
  = Return {| version := V1; keyId := Some k; cipherSpec := None;
              iv := iv; ciphertext := ct |}.
Proof.
  intros Hnot. unfold MslCiphertextEnvelope_init.
  by rewrite init_loop_miss.
Qed.

Lemma create_key_id k iv ct :
  ¬ In k (map snd MslConstants_CipherSpec) →
  MslCiphertextEnvelope_create k iv ct
  = Return {| version := V1; keyId := Some k; cipherSpec := None;
              iv := iv; ciphertext := ct |}.
Proof.
  intros Hnot. unfold MslCiphertextEnvelope_create, MslCiphertextEnvelope_init.
  by rewrite init_loop_miss.
Qed.

Lemma create_cipher_spec spec iv ct :
  In spec (map snd MslConstants_CipherSpec) →
  MslCiphertextEnvelope_create spec iv ct
  = Return {| version := V2; keyId := None; cipherSpec := Some spec;
              iv := iv; ciphertext := ct |}.
Proof.
  intros Hin. unfold MslCiphertextEnvelope_create, MslCiphertextEnvelope_init.
  by rewrite init_loop_hit.
Qed.

Lemma In_dec_spec (k : string) (l : list string) : In k l ∨ ¬ In k l.
Proof. destruct (in_dec string_dec k l); tauto. Qed.

(** The constructor always delivers an envelope, and the envelope keeps
    the vector and the ciphertext it was given. *)
Lemma init_delivers k iv0 ct :
  ∃ e, MslCiphertextEnvelope_init k iv0 ct = Return e
       ∧ iv e = iv0 ∧ ciphertext e = ct
       ∧ (keyId e = Some k ∨ keyId e = None).
Proof.
  destruct (In_dec_spec k (map snd MslConstants_CipherSpec)) as [Hin | Hnot].
  - pose proof (create_cipher_spec k iv0 ct Hin) as E.
    unfold MslCiphertextEnvelope_create in E. rewrite E. eexists; eauto.
  - pose proof (create_key_id k iv0 ct Hnot) as E.
    unfold MslCiphertextEnvelope_create in E. rewrite E. eexists; eauto 6.
Qed.

(** C9: a first argument that is a recognized cipher specification makes a
    version 2 envelope with a null key ID and that specification, whatever
    the vector and ciphertext; and no envelope that [create] delivers is a
    version 1 envelope whose key ID is a recognized cipher specification. *)
Theorem create_recognized_spec_is_V2 (spec : string) (iv0 : value) (ct : list byte) :
  In spec (map snd MslConstants_CipherSpec) →
  MslCiphertextEnvelope_create spec iv0 ct
  = Return {| version := V2; keyId := None; cipherSpec := Some spec;
              iv := iv0; ciphertext := ct |}
  ∧ ∀ (keyIdOrSpec : string) (iv1 : value) (ct1 : list byte) (e : MslCiphertextEnvelope) (k : string),
      MslCiphertextEnvelope_create keyIdOrSpec iv1 ct1 = Return e →
      version e = V1 → keyId e = Some k →
      ¬ In k (map snd MslConstants_CipherSpec).
Proof.
  intros Hin. split; [by apply create_cipher_spec|].
  intros keyIdOrSpec iv1 ct1 e k Hcreate Hv Hk Hspec.
  destruct (In_dec_spec keyIdOrSpec (map snd MslConstants_CipherSpec)) as [Hin' | Hnot].
  - rewrite (create_cipher_spec _ iv1 ct1 Hin') in Hcreate.
    injection Hcreate as <-. discriminate Hv.
  - rewrite (create_key_id _ iv1 ct1 Hnot) in Hcreate.
    injection Hcreate as <-. simpl in Hk. injection Hk as <-. contradiction.
Qed.

(** What [toJSON] puts under each key of a version 1 envelope. *)
Lemma toJSON_V1_lookup k c iv0 ct :
  let json := toJSON {| version := V1; keyId := k; cipherSpec := c;
                        iv := iv0; ciphertext := ct |} in
  json !! KEY_KEY_ID = Some (nullable k)
  ∧ json !! KEY_IV = (if ToBoolean iv0 then Some (VStr (base64_encode iv0)) else None)
  ∧ json !! KEY_CIPHERTEXT = Some (VStr (base64_encode (VUint8Array ct)))
  ∧ json !! KEY_SHA256 = Some (VStr "AA==")
  ∧ json !! KEY_VERSION = None
  ∧ json !! KEY_CIPHERSPEC = None.
Proof.
  unfold toJSON, put_iv, KEY_KEY_ID, KEY_IV, KEY_CIPHERTEXT, KEY_SHA256,
    KEY_VERSION, KEY_CIPHERSPEC. cbn [version keyId iv ciphertext].
  destruct (ToBoolean iv0); repeat split; by simplify_map_eq.
Qed.

(** C7: the [sha256] member of a serialized version 1 envelope is the
    fixed text [AA==], whatever the key ID, the vector and the ciphertext
    are: it is never computed from them. *)
Theorem toJSON_V1_sha256_fixed (k c : option string) (iv0 : value) (ct : list byte) :
  toJSON {| version := V1; keyId := k; cipherSpec := c; iv := iv0; ciphertext := ct |}
    !! KEY_SHA256 = Some (VStr "AA==").
Proof. apply toJSON_V1_lookup. Qed.

(** *** Parsing *)

Lemma parse_object (props : gmap string value) (hint : value) :
  MslCiphertextEnvelope_parse (VObject props) hint
  = (version ← determine_version (VObject props) hint;
     keyIdOrSpec ← verify_values (VObject props) version
                     (default VUndefined (props !! KEY_KEY_ID))
                     (default VUndefined (props !! KEY_CIPHERSPEC))
                     (default VUndefined (props !! KEY_IV))
                     (default VUndefined (props !! KEY_CIPHERTEXT))
                     (default VUndefined (props !! KEY_SHA256));
     '(iv, ciphertext) ← decode_values (default VUndefined (props !! KEY_IV))
                           (default VUndefined (props !! KEY_CIPHERTEXT));
     MslCiphertextEnvelope_init keyIdOrSpec iv ciphertext).
Proof. reflexivity. Qed.

Lemma determine_version_hint (jsonObj hint : value) :
  ToBoolean hint = true → determine_version jsonObj hint = Return hint.
Proof. intros Ht. unfold determine_version. by rewrite Ht. Qed.

(** Without a hint, a [version] member that is no number, is NaN or is a
    zero makes the version 1. *)
Lemma determine_version_fallback (props : gmap string value) (hint : value) :
  ToBoolean hint = false →
  let v := default VUndefined (props !! KEY_VERSION) in
  is_number v = false ∨ strict_ne_self v = true ∨ ToBoolean v = false →
  determine_version (VObject props) hint = Return (VNum (Version_number V1)).
Proof.
  intros Hh v Hv. unfold determine_version. rewrite Hh. cbn.
  fold v.
  destruct Hv as [-> | [-> | ->]]; cbn; by rewrite ?orb_true_r.
Qed.

(** Without a hint, a [version] member that is a number other than NaN,
    the zeros, 1 and 2 is not identified. *)
Lemma determine_version_unidentified (props : gmap string value) (hint : value) (n : float) :
  ToBoolean hint = false →
  props !! KEY_VERSION = Some (VNum n) →
  is_NaN n = false → PrimFloat.eqb n 0 = false →
  PrimFloat.eqb n 1 = false → PrimFloat.eqb n 2 = false →
  determine_version (VObject props) hint
  = Throw (MslCryptoException UNIDENTIFIED_CIPHERTEXT_ENVELOPE None).
Proof.
  intros Hh Hv Hnan H0 H1 H2. unfold determine_version. rewrite Hh. cbn.
  rewrite Hv. cbn. rewrite Hnan, H0, H1, H2. reflexivity.
Qed.

(** C3, as the code has it: with no version hint, an object whose
    [version] member is absent, not of number type, NaN or a zero is
    parsed exactly as with the version 1 hint; one whose [version] member
    is any other number different from 1 and 2 fails with the
    unidentified-envelope error, a protocol mismatch. *)
Theorem parse_without_hint (props : gmap string value) (hint : value) :
  ToBoolean hint = false →
  let v := default VUndefined (props !! KEY_VERSION) in
  (is_number v = false ∨ (∃ n, v = VNum n ∧ (is_NaN n = true ∨ PrimFloat.eqb n 0 = true)) →
   envelope_version (VObject props) hint = Return V1
   ∧ MslCiphertextEnvelope_parse (VObject props) hint
     = MslCiphertextEnvelope_parse (VObject props) (VNum (Version_number V1)))
  ∧ (∀ n, v = VNum n → is_NaN n = false → PrimFloat.eqb n 0 = false →
          PrimFloat.eqb n 1 = false → PrimFloat.eqb n 2 = false →
     MslCiphertextEnvelope_parse (VObject props) hint
     = Throw (MslCryptoException UNIDENTIFIED_CIPHERTEXT_ENVELOPE None)
     ∧ error_class (MslCryptoException UNIDENTIFIED_CIPHERTEXT_ENVELOPE None)
       = Some ProtocolMismatchError).
Proof.
  intros Hh v. split.
  - intros Hv.
    assert (Hd : determine_version (VObject props) hint
                 = Return (VNum (Version_number V1))).
    { apply determine_version_fallback; [done|]. fold v.
      destruct Hv as [Hv | (n & -> & [Hn | Hn])]; cbn; auto.
      right. right. by rewrite Hn. }
    split.
    + unfold envelope_version. by rewrite Hd.
    + rewrite !parse_object, Hd. by rewrite determine_version_hint.
  - intros n Hv Hnan H0 H1 H2. split; [|reflexivity].
    rewrite parse_object.
    rewrite (determine_version_unidentified props hint n); auto.
    subst v. destruct (props !! KEY_VERSION) as [w|] eqn:E; cbn in Hv; by subst.
Qed.

(** The first check of the version 2 branch, under the version 2 hint. *)
Lemma parse_V2_hint_version_check (props : gmap string value) :
  loose_eq_number (default VUndefined (props !! KEY_VERSION)) (Version_number V2) = false →
  MslCiphertextEnvelope_parse (VObject props) (VNum (Version_number V2))
  = Throw (MslCryptoException UNIDENTIFIED_CIPHERTEXT_ENVELOPE None).
Proof.
  intros Hne.
  rewrite parse_object, determine_version_hint by reflexivity.
  cbn in Hne |- *. by rewrite Hne.
Qed.

(** C10: under the explicit version 2 hint the object's own [version]
    member must still equal 2: when the member is absent, is a number other
    than 2, or in general does not equal 2 by the language's [==], parsing
    fails with the unidentified-envelope error, a protocol mismatch, before
    any other member is looked at. *)
Theorem parse_V2_hint_requires_version_member (props : gmap string value) :
  let v := default VUndefined (props !! KEY_VERSION) in
  props !! KEY_VERSION = None
  ∨ (∃ n, v = VNum n ∧ PrimFloat.eqb n (Version_number V2) = false)
  ∨ loose_eq_number v (Version_number V2) = false →
  MslCiphertextEnvelope_parse (VObject props) (VNum (Version_number V2))
  = Throw (MslCryptoException UNIDENTIFIED_CIPHERTEXT_ENVELOPE None)
  ∧ error_class (MslCryptoException UNIDENTIFIED_CIPHERTEXT_ENVELOPE None)
    = Some ProtocolMismatchError.
Proof.
  intros v Hv. split; [|reflexivity].
  apply parse_V2_hint_version_check. fold v.
  destruct Hv as [Habsent | [(n & -> & Hn) | Hv]].
  - subst v. by rewrite Habsent.
  - exact Hn.
  - exact Hv.
Qed.

(** C8, as the code has it: an object parsed as a version 2 envelope
    whose [cipherspec] member is a string that maps to no recognized
    cipher specification, whose [iv] member is falsy or a string and whose
    [ciphertext] member is a string, fails with a protocol mismatch: the
    unidentified-cipher-specification error when its [version] member
    equals 2. *)
Theorem parse_V2_unmapped_cipherspec (props : gmap string value) (hint : value) (s : string) :
  envelope_version (VObject props) hint = Return V2 →
  props !! KEY_CIPHERSPEC = Some (VStr s) →
  MslConstants_CipherSpec_fromString s = None →
  (let iv0 := default VUndefined (props !! KEY_IV) in
   ToBoolean iv0 = false ∨ is_string iv0 = true) →
  is_string (default VUndefined (props !! KEY_CIPHERTEXT)) = true →
  ∃ error,
    MslCiphertextEnvelope_parse (VObject props) hint = Throw (MslCryptoException error None)
    ∧ MslError_class error = ProtocolMismatchError
    ∧ (loose_eq_number (default VUndefined (props !! KEY_VERSION)) (Version_number V2) = true →
       error = UNIDENTIFIED_CIPHERSPEC).
Proof.
  intros Hver Hspec Hmap Hiv Hct.
  rewrite parse_object. unfold envelope_version in Hver.
  destruct (determine_version (VObject props) hint) as [version|e]; [|discriminate].
  cbn in Hver. cbn. unfold verify_values. rewrite Hver. cbn.
  destruct (loose_eq_number (default VUndefined (props !! KEY_VERSION)) 2) eqn:Hv; cbn.
  - rewrite Hspec. cbn. rewrite Hct. cbn in Hiv.
    assert (Hiv' : ToBoolean (default VUndefined (props !! KEY_IV))
                   && negb (is_string (default VUndefined (props !! KEY_IV))) = false).
    { destruct Hiv as [-> | ->]; [reflexivity | by rewrite andb_false_r]. }
    rewrite Hiv'. cbn. rewrite Hmap. cbn. eexists. split; [reflexivity|]. done.
  - eexists. split; [reflexivity|]. split; [reflexivity | discriminate].
Qed.

(** A successful parse under the version 1 hint read a string under
    [keyid]; the envelope's key ID is that string, or null when the
    constructor took the string for a cipher specification. *)
Lemma parse_V1_keyId (jsonObj : value) (e : MslCiphertextEnvelope) :
  MslCiphertextEnvelope_parse jsonObj (VNum (Version_number V1)) = Return e →
  ∃ k, Get jsonObj KEY_KEY_ID = Return (VStr k) ∧ (keyId e = Some k ∨ keyId e = None).
Proof.
  destruct jsonObj as [| |b|n|s|bytes|props]; try discriminate.
  rewrite parse_object, determine_version_hint by reflexivity.
  cbn. unfold verify_values. cbn.
  destruct (default VUndefined (props !! KEY_KEY_ID)) as [| |b|n|k|bytes|o] eqn:Hk;
    try discriminate.
  cbn.
  match goal with |- context [if ?c then _ else _] => destruct c end; [discriminate|].
  cbn.
  destruct (decode_values _ _) as [[iv1 ct1]|]; [|discriminate].
  cbn. intros Hinit.
  destruct (init_delivers k iv1 ct1) as (e' & He' & _ & _ & Hkey).
  rewrite He' in Hinit. injection Hinit as <-.
  exists k. split; [reflexivity | exact Hkey].
Qed.

Section RoundTrip.
Hypothesis decode_encode :
  ∀ bytes, base64_decode (base64_encode (VUint8Array bytes)) = Return bytes.

(** Serializing a version 1 envelope whose vector is falsy or a
    non-empty byte array whose base64 text is not empty, and parsing the
    object back, restores the key ID, the vector's bytes and the
    ciphertext. *)
Lemma V1_round_trip (k : string) (iv0 : value) (ct : list byte) :
  ¬ In k (map snd MslConstants_CipherSpec) →
  ToBoolean iv0 = false
  ∨ (∃ bytes, iv0 = VUint8Array bytes ∧ base64_encode iv0 ≠ "") →
  ∃ e e',
    MslCiphertextEnvelope_create k iv0 ct = Return e
    ∧ version e = V1
    ∧ MslCiphertextEnvelope_parse (VObject (toJSON e)) VNull = Return e'
    ∧ version e' = V1
    ∧ keyId e' = Some k
    ∧ iv_bytes (iv e') = iv_bytes iv0
    ∧ ciphertext e' = ct.
Proof.
  intros Hk Hiv.
  destruct (toJSON_V1_lookup (Some k) None iv0 ct) as (Hkid & Hjiv & Hjct & Hsha & Hver & _).
  cbv zeta in Hkid, Hjiv, Hjct, Hsha, Hver.
  exists {| version := V1; keyId := Some k; cipherSpec := None;
            iv := iv0; ciphertext := ct |}.
  destruct Hiv as [Hf | (bytes & -> & Hne)].
  - exists {| version := V1; keyId := Some k; cipherSpec := None;
              iv := VUndefined; ciphertext := ct |}.
    split; [by apply create_key_id|]. split; [reflexivity|].
    rewrite parse_object.
    rewrite (determine_version_fallback _ VNull) by (try rewrite Hver; cbn; auto).
    rewrite Hkid, Hjiv, Hjct, Hsha. cbn.
    rewrite Hf. cbn. unfold decode_values. cbn. rewrite decode_encode. cbn.
    rewrite (init_key_id k VUndefined ct Hk).
    repeat split; cbn.
    destruct iv0; try reflexivity; discriminate.
  - exists {| version := V1; keyId := Some k; cipherSpec := None;
              iv := VUint8Array bytes; ciphertext := ct |}.
    split; [by apply create_key_id|]. split; [reflexivity|].
    rewrite parse_object.
    rewrite (determine_version_fallback _ VNull) by (try rewrite Hver; cbn; auto).
    rewrite Hkid, Hjiv, Hjct, Hsha. cbn.
    unfold decode_values. cbn.
    destruct (base64_encode (VUint8Array bytes)) as [|c rest] eqn:Henc; [done|].
    cbn. rewrite <- Henc, !decode_encode. cbn.
    rewrite (init_key_id k (VUint8Array bytes) ct Hk).
    repeat split.
Qed.

(** C1 fails on a zero-length vector: [toJSON] writes its base64 text,
    the empty string, under [iv]; [parse] finds that text falsy, decodes
    nothing and hands the empty string itself to the constructor.  The
    parsed envelope holds no byte array where the original held a
    zero-length one. *)
Theorem V1_round_trip_empty_iv (k : string) (ct : list byte) :
  base64_encode (VUint8Array []) = "" →
  ¬ In k (map snd MslConstants_CipherSpec) →
  ∃ e e',
    MslCiphertextEnvelope_create k (VUint8Array []) ct = Return e
    ∧ version e = V1
    ∧ iv_bytes (iv e) = Some []
    ∧ MslCiphertextEnvelope_parse (VObject (toJSON e)) VNull = Return e'
    ∧ iv e' = VStr ""
    ∧ iv_bytes (iv e') = None.
Proof.
  intros Henc Hk. eexists. eexists.
  split; [by apply create_key_id|]. split; [reflexivity|]. split; [reflexivity|].
  rewrite parse_object.
  destruct (toJSON_V1_lookup (Some k) None (VUint8Array []) ct)
    as (Hkid & Hjiv & Hjct & Hsha & Hver & _).
  cbv zeta in Hkid, Hjiv, Hjct, Hsha, Hver.
  rewrite (determine_version_fallback _ VNull) by (try rewrite Hver; cbn; auto).
  rewrite Hkid, Hjiv, Hjct, Hsha. cbn. rewrite Henc. cbn.
  unfold decode_values. cbn. rewrite decode_encode. cbn.
  rewrite (init_key_id k (VStr "") ct Hk).
  repeat split.
Qed.
End RoundTrip.

End EnvelopeProperties.

(** ** The RSA crypto context *)

Section ContextProperties.
Context `{EnvelopeCollaborators} `{ContextCollaborators}.

Lemma init_transform_active id0 priv pub mode :
  mode = ENCRYPT_DECRYPT_OAEP ∨ mode = ENCRYPT_DECRYPT_PKCS1 →
  is_NULL_OP (transform (RsaCryptoContext_init id0 priv pub mode)) = false.
Proof. by intros [-> | ->]. Qed.

Lemma init_wrapTransform_inactive id0 priv pub mode :
  mode ≠ WRAP_UNWRAP_OAEP → mode ≠ WRAP_UNWRAP_PKCS1 →
  wrapTransform (RsaCryptoContext_init id0 priv pub mode) = NULL_OP.
Proof. by destruct mode. Qed.

Lemma init_algo_inactive id0 priv pub mode :
  mode ≠ SIGN_VERIFY → algo (RsaCryptoContext_init id0 priv pub mode) = NULL_OP.
Proof. by destruct mode. Qed.

(** C2, as the code has it: a context in an encrypt/decrypt mode that
    holds a public key delivers a zero-length input unchanged as the
    result of [encrypt], with no call to the provider. *)
Theorem encrypt_empty_unchanged (id0 : string) (priv pub : option KeyHandle) (mode : Mode) :
  mode = ENCRYPT_DECRYPT_OAEP ∨ mode = ENCRYPT_DECRYPT_PKCS1 →
  ToBoolean (extract_rawKey pub) = true →
  encrypt (RsaCryptoContext_init id0 priv pub mode) [] = Result []
  ∧ delivered (encrypt (RsaCryptoContext_init id0 priv pub mode) []) = true.
Proof.
  intros Hmode Hpub.
  assert (E : encrypt (RsaCryptoContext_init id0 priv pub mode) [] = Result []).
  { unfold encrypt. rewrite init_transform_active by done.
    cbn [publicKey RsaCryptoContext_init]. by rewrite Hpub. }
  by rewrite E.
Qed.

(** C4: a context whose mode is not a wrap/unwrap mode fails every [wrap]
    with the wrap-not-supported error, a capability that is unavailable;
    no key handle gets a result, its raw material or any other. *)
Theorem wrap_inactive_fails (id0 : string) (priv pub : option KeyHandle) (mode : Mode)
    (key : KeyHandle) :
  mode ≠ WRAP_UNWRAP_OAEP → mode ≠ WRAP_UNWRAP_PKCS1 →
  wrap (RsaCryptoContext_init id0 priv pub mode) key
  = Error (MslCryptoException WRAP_NOT_SUPPORTED None)
  ∧ error_class (MslCryptoException WRAP_NOT_SUPPORTED None) = Some CapabilityUnavailableError
  ∧ ∀ bytes, wrap (RsaCryptoContext_init id0 priv pub mode) key ≠ Result bytes.
Proof.
  intros Hoaep Hpkcs.
  assert (E : wrap (RsaCryptoContext_init id0 priv pub mode) key
              = Error (MslCryptoException WRAP_NOT_SUPPORTED None)).
  { unfold wrap. by rewrite init_wrapTransform_inactive. }
  rewrite E. repeat split. intros bytes. discriminate.
Qed.

(** C5: a context whose mode is not sign/verify delivers the empty byte
    sequence for every [sign] and true for every [verify], whichever keys
    it holds. *)
Theorem sign_verify_inactive (id0 : string) (priv pub : option KeyHandle) (mode : Mode)
    (data signature : list byte) :
  mode ≠ SIGN_VERIFY →
  sign (RsaCryptoContext_init id0 priv pub mode) data = Result []
  ∧ verify (RsaCryptoContext_init id0 priv pub mode) data signature = Result true.
Proof.
  intros Hmode. unfold sign, verify.
  by rewrite init_algo_inactive.
Qed.

(** C6: a context in an encrypt/decrypt mode that holds a private key,
    given a non-empty input whose text parses as a version 1 envelope
    with a [keyid] other than the context's identity, delivers the
    key-ID-mismatch error, a protocol mismatch, with no call to the
    provider. *)
Theorem decrypt_key_id_mismatch (id0 : string) (priv pub : option KeyHandle) (mode : Mode)
    (data : list byte) (json : string) (jo : value) (envelope : MslCiphertextEnvelope)
    (embedded : string) :
  mode = ENCRYPT_DECRYPT_OAEP ∨ mode = ENCRYPT_DECRYPT_PKCS1 →
  ToBoolean (extract_rawKey priv) = true →
  data ≠ [] →
  textEncoding_getString data = Return json →
  JSON_parse json = Return jo →
  MslCiphertextEnvelope_parse jo (VNum (Version_number V1)) = Return envelope →
  Get jo KEY_KEY_ID = Return (VStr embedded) →
  embedded ≠ id0 →
  decrypt (RsaCryptoContext_init id0 priv pub mode) data
  = Error (MslCryptoException ENVELOPE_KEY_ID_MISMATCH None)
  ∧ error_class (MslCryptoException ENVELOPE_KEY_ID_MISMATCH None)
    = Some ProtocolMismatchError
  ∧ delivered (decrypt (RsaCryptoContext_init id0 priv pub mode) data) = true.
Proof.
  intros Hmode Hpriv Hdata Htext Hjson Hparse Hkey Hne.
  assert (E : decrypt (RsaCryptoContext_init id0 priv pub mode) data
              = Error (MslCryptoException ENVELOPE_KEY_ID_MISMATCH None)).
  { unfold decrypt. rewrite init_transform_active by done.
    cbn [privateKey id RsaCryptoContext_init]. rewrite Hpriv. cbn [negb].
    destruct data as [|b rest]; [done|]. cbn [List.length Nat.eqb].
    rewrite Htext. cbn [mbind completion_bind]. rewrite Hjson, Hparse.
    destruct (parse_V1_keyId jo envelope Hparse) as (k & Hk & Hid).
    rewrite Hkey in Hk. injection Hk as <-.
    assert (Hdiff : keyId_differs (keyId envelope) id0 = true).
    { destruct Hid as [-> | ->]; [|reflexivity].
      cbn. apply negb_true_iff, String.eqb_neq. exact Hne. }
    by rewrite Hdiff. }
  by rewrite E.
Qed.

End ContextProperties.

(** ** Closed instances *)

(** The reference base64 meets the round-trip hypothesis. *)
Lemma reference_decode_encode (bytes : list byte) :
  @base64_decode reference_envelope_collaborators
    (@base64_encode reference_envelope_collaborators (VUint8Array bytes)) = Return bytes.
Proof. apply rfc4648_decode_text_encode. Qed.

Section Examples.
#[local] Existing Instance reference_envelope_collaborators.
#[local] Existing Instance reference_context_collaborators.

(** [create("keyid", new Uint8Array([7, 8]), [1])], serialized and parsed
    back: key ID, vector and ciphertext are restored. *)
Lemma reference_V1_round_trip :
  ∃ e e',
    MslCiphertextEnvelope_create "keyid" (VUint8Array [x07; x08]) [x01] = Return e
    ∧ version e = V1
    ∧ MslCiphertextEnvelope_parse (VObject (toJSON e)) VNull = Return e'
    ∧ version e' = V1
    ∧ keyId e' = Some "keyid"
    ∧ iv_bytes (iv e') = Some [x07; x08]
    ∧ ciphertext e' = [x01].
Proof.
  apply (V1_round_trip reference_decode_encode "keyid" (VUint8Array [x07; x08]) [x01]).
  - vm_compute. intros [Heq | []]. discriminate Heq.
  - right. exists [x07; x08]. split; [reflexivity|].
    intros Hempty. apply rfc4648_encode_empty in Hempty. discriminate Hempty.
Qed.

(** [create("keyid", new Uint8Array(0), [1])], serialized and parsed back. *)
Lemma V1_round_trip_empty_iv_witness :
  ∃ e e',
    MslCiphertextEnvelope_create "keyid" (VUint8Array []) [x01] = Return e
    ∧ version e = V1
    ∧ iv_bytes (iv e) = Some []
    ∧ MslCiphertextEnvelope_parse (VObject (toJSON e)) VNull = Return e'
    ∧ iv e' = VStr ""
    ∧ iv_bytes (iv e') = None.
Proof.
  apply (V1_round_trip_empty_iv reference_decode_encode "keyid" [x01]).
  - reflexivity.
  - vm_compute. intros [Heq | []]. discriminate Heq.
Defined.

(** [encrypt] of no bytes in OAEP mode without a public key. *)
Lemma encrypt_empty_without_public_key :
  let self := RsaCryptoContext_init "rsa" (Some sample_key) None ENCRYPT_DECRYPT_OAEP in
  encrypt self [] = Error (MslCryptoException ENCRYPT_NOT_SUPPORTED None)
  ∧ encrypt self [] ≠ Result [].
Proof. split; [reflexivity | discriminate]. Qed.

Lemma encrypt_empty_unchanged_witness :
  encrypt (RsaCryptoContext_init "rsa" None (Some sample_key) ENCRYPT_DECRYPT_PKCS1) []
  = Result [].
Proof.
  apply (encrypt_empty_unchanged "rsa" None (Some sample_key) ENCRYPT_DECRYPT_PKCS1).
  - right. reflexivity.
  - reflexivity.
Defined.

(** [{"version":0,"keyid":"k","ciphertext":"","sha256":"AA=="}] with no
    hint: a number that is neither 1 nor 2, and a version 1 envelope. *)
Lemma parse_version_zero_is_V1 :
  let props : gmap string value :=
    <[KEY_VERSION := VNum 0]> (<[KEY_KEY_ID := VStr "k"]>
      (<[KEY_CIPHERTEXT := VStr ""]> (<[KEY_SHA256 := VStr "AA=="]> ∅))) in
  props !! KEY_VERSION = Some (VNum 0)
  ∧ PrimFloat.eqb 0 (Version_number V1) = false
  ∧ PrimFloat.eqb 0 (Version_number V2) = false
  ∧ MslCiphertextEnvelope_parse (VObject props) VNull
    = Return {| version := V1; keyId := Some "k"; cipherSpec := None;
                iv := VUndefined; ciphertext := [] |}.
Proof. vm_compute. repeat split. Qed.

Lemma parse_without_hint_witness :
  let props : gmap string value :=
    <[KEY_VERSION := VNum 99]> (<[KEY_KEY_ID := VStr "k"]>
      (<[KEY_CIPHERTEXT := VStr ""]> (<[KEY_SHA256 := VStr "AA=="]> ∅))) in
  MslCiphertextEnvelope_parse (VObject props) VNull
  = Throw (MslCryptoException UNIDENTIFIED_CIPHERTEXT_ENVELOPE None)
  ∧ MslCiphertextEnvelope_parse (VObject ∅) VNull
    = MslCiphertextEnvelope_parse (VObject ∅) (VNum (Version_number V1)).
Proof.
  intros props. split.
  - apply (proj2 (parse_without_hint props VNull eq_refl) 99%float);
      vm_compute; reflexivity.
  - apply (proj1 (parse_without_hint ∅ VNull eq_refl)).
    left. reflexivity.
Defined.

(** [{"version":2,"cipherspec":"UNKNOWN"}], the example of the
    specification: parsed as version 2, the cipher specification maps to
    nothing, and the failure is the encoding error for the missing
    [ciphertext]. *)
Lemma parse_V2_unknown_cipherspec_missing_ciphertext :
  let props : gmap string value :=
    <[KEY_VERSION := VNum 2]> (<[KEY_CIPHERSPEC := VStr "UNKNOWN"]> ∅) in
  envelope_version (VObject props) VNull = Return V2
  ∧ props !! KEY_CIPHERSPEC = Some (VStr "UNKNOWN")
  ∧ MslConstants_CipherSpec_fromString "UNKNOWN" = None
  ∧ MslCiphertextEnvelope_parse (VObject props) VNull
    = Throw (MslEncodingException JSON_PARSE_ERROR)
  ∧ error_class (MslEncodingException JSON_PARSE_ERROR) = Some EncodingError.
Proof. vm_compute. repeat split. Qed.

Lemma parse_V2_unmapped_cipherspec_witness :
  let props : gmap string value :=
    <[KEY_VERSION := VNum 2]> (<[KEY_CIPHERSPEC := VStr "UNKNOWN"]>
      (<[KEY_CIPHERTEXT := VStr "AA=="]> ∅)) in
  ∃ error,
    MslCiphertextEnvelope_parse (VObject props) VNull
    = Throw (MslCryptoException error None)
    ∧ MslError_class error = ProtocolMismatchError
    ∧ (loose_eq_number (default VUndefined (props !! KEY_VERSION)) (Version_number V2) = true →
       error = UNIDENTIFIED_CIPHERSPEC).
Proof.
  intros props.
  apply (parse_V2_unmapped_cipherspec props VNull "UNKNOWN").
  - vm_compute. reflexivity.
  - vm_compute. reflexivity.
  - vm_compute. reflexivity.
  - left. vm_compute. reflexivity.
  - vm_compute. reflexivity.
Defined.

Lemma parse_V2_hint_requires_version_member_witness :
  let props : gmap string value :=
    <[KEY_CIPHERSPEC := VStr "AES/CBC/PKCS5Padding"]> (<[KEY_CIPHERTEXT := VStr "AA=="]> ∅) in
  MslCiphertextEnvelope_parse (VObject props) (VNum (Version_number V2))
  = Throw (MslCryptoException UNIDENTIFIED_CIPHERTEXT_ENVELOPE None).
Proof.
  intros props.
  apply (parse_V2_hint_requires_version_member props).
  left. vm_compute. reflexivity.
Defined.

Lemma create_recognized_spec_is_V2_witness :
  MslCiphertextEnvelope_create "AES/CBC/PKCS5Padding" VNull [x01]
  = Return {| version := V2; keyId := None; cipherSpec := Some "AES/CBC/PKCS5Padding";
              iv := VNull; ciphertext := [x01] |}.
Proof.
  apply (create_recognized_spec_is_V2 "AES/CBC/PKCS5Padding" VNull [x01]).
  simpl. left. reflexivity.
Defined.

Lemma wrap_inactive_fails_witness :
  wrap (RsaCryptoContext_init "rsa" (Some sample_key) (Some sample_key) ENCRYPT_DECRYPT_OAEP) sample_key
  = Error (MslCryptoException WRAP_NOT_SUPPORTED None).
Proof.
  apply (wrap_inactive_fails "rsa" (Some sample_key) (Some sample_key) ENCRYPT_DECRYPT_OAEP sample_key);
    discriminate.
Defined.

Lemma sign_verify_inactive_witness :
  sign (RsaCryptoContext_init "rsa" (Some sample_key) None WRAP_UNWRAP_OAEP) [x01] = Result []
  ∧ verify (RsaCryptoContext_init "rsa" (Some sample_key) None WRAP_UNWRAP_OAEP) [x01] [x02]
    = Result true.
Proof.
  apply (sign_verify_inactive "rsa" (Some sample_key) None WRAP_UNWRAP_OAEP [x01] [x02]).
  discriminate.
Defined.

(** The bytes a context of identity [other] would send for the ciphertext
    [1], handed to [decrypt] of a context of identity [rsa]. *)
Lemma decrypt_key_id_mismatch_witness :
  let data := list_byte_of_string
    ("{" ++ quoted "keyid" ++ ":" ++ quoted "other" ++ ","
         ++ quoted "ciphertext" ++ ":" ++ quoted "AQ==" ++ ","
         ++ quoted "sha256" ++ ":" ++ quoted "AA==" ++ "}") in
  decrypt (RsaCryptoContext_init "rsa" (Some sample_key) None ENCRYPT_DECRYPT_OAEP) data
  = Error (MslCryptoException ENVELOPE_KEY_ID_MISMATCH None).
Proof.
  intros data.
  eapply (decrypt_key_id_mismatch "rsa" (Some sample_key) None ENCRYPT_DECRYPT_OAEP
            data _ _ _ "other").
  - left. reflexivity.
  - reflexivity.
  - discriminate.
  - vm_compute. reflexivity.
  - vm_compute. reflexivity.
  - vm_compute. reflexivity.
  - vm_compute. reflexivity.
  - discriminate.
Defined.

End Examples.

(** * Further properties *)

(** ** The envelope codec *)

Section EnvelopeFurther.
Context `{EnvelopeCollaborators}.

(** What [toJSON] puts under each key of a version 2 envelope. *)
Lemma toJSON_V2_lookup k c iv0 ct :
  let json := toJSON {| version := V2; keyId := k; cipherSpec := c;
                        iv := iv0; ciphertext := ct |} in
  json !! KEY_VERSION = Some (VNum (Version_number V2))
  ∧ json !! KEY_CIPHERSPEC = Some (nullable c)
  ∧ json !! KEY_IV = (if ToBoolean iv0 then Some (VStr (base64_encode iv0)) else None)
  ∧ json !! KEY_CIPHERTEXT = Some (VStr (base64_encode (VUint8Array ct)))
  ∧ json !! KEY_KEY_ID = None
  ∧ json !! KEY_SHA256 = None.
Proof.
  unfold toJSON, put_iv, KEY_KEY_ID, KEY_IV, KEY_CIPHERTEXT, KEY_SHA256,
    KEY_VERSION, KEY_CIPHERSPEC. cbn [version cipherSpec iv ciphertext].
  destruct (ToBoolean iv0); repeat split; by simplify_map_eq.
Qed.

(** The two shapes an envelope of the constructor has. *)
Lemma init_shape k iv0 ct :
  MslCiphertextEnvelope_init k iv0 ct
  = Return {| version := V1; keyId := Some k; cipherSpec := None;
              iv := iv0; ciphertext := ct |}
    ∧ ¬ In k (map snd MslConstants_CipherSpec)
  ∨ MslCiphertextEnvelope_init k iv0 ct
    = Return {| version := V2; keyId := None; cipherSpec := Some k;
                iv := iv0; ciphertext := ct |}
    ∧ In k (map snd MslConstants_CipherSpec).
Proof.
  destruct (In_dec_spec k (map snd MslConstants_CipherSpec)) as [Hin | Hnot].
  - right. split; [|done]. unfold MslCiphertextEnvelope_init. by rewrite init_loop_hit.
  - left. split; [|done]. by apply init_key_id.
Qed.

(** [create] always delivers: the envelope keeps the vector and the
    ciphertext, and it has the key ID (version 1) or the cipher
    specification (version 2), never both and never neither; which one is
    decided by whether the first argument is a recognized cipher
    specification. *)
Theorem create_delivers_one_of (keyIdOrSpec : string) (iv0 : value) (ct : list byte) :
  ∃ e, MslCiphertextEnvelope_create keyIdOrSpec iv0 ct = Return e
       ∧ iv e = iv0 ∧ ciphertext e = ct
       ∧ (version e = V1 ∧ keyId e = Some keyIdOrSpec ∧ cipherSpec e = None
            ∧ ¬ In keyIdOrSpec (map snd MslConstants_CipherSpec)
          ∨ version e = V2 ∧ keyId e = None ∧ cipherSpec e = Some keyIdOrSpec
            ∧ In keyIdOrSpec (map snd MslConstants_CipherSpec)).
Proof.
  unfold MslCiphertextEnvelope_create.
  destruct (init_shape keyIdOrSpec iv0 ct) as [[-> Hk] | [-> Hk]];
    eexists; (split; [reflexivity|]); cbn; auto 10.
Qed.


(** A value other than an object has no member to parse. *)
Lemma parse_succeeds_on_object jsonObj hint e :
  MslCiphertextEnvelope_parse jsonObj hint = Return e →
  ∃ props, jsonObj = VObject props.
Proof.
  destruct jsonObj as [| |b|n|s|bytes|props]; try discriminate; [..|by eauto];
    unfold MslCiphertextEnvelope_parse; cbn;
    (destruct (determine_version _ hint) as [v|]; [|discriminate]); cbn;
    unfold verify_values;
    (destruct (switch_version v) as [[|]|]; discriminate).
Qed.

(** The steps of a successful parse. *)
Lemma parse_inv (props : gmap string value) hint e :
  MslCiphertextEnvelope_parse (VObject props) hint = Return e →
  ∃ version k iv1 ct,
    determine_version (VObject props) hint = Return version
    ∧ verify_values (VObject props) version
        (default VUndefined (props !! KEY_KEY_ID))
        (default VUndefined (props !! KEY_CIPHERSPEC))
        (default VUndefined (props !! KEY_IV))
        (default VUndefined (props !! KEY_CIPHERTEXT))
        (default VUndefined (props !! KEY_SHA256)) = Return k
    ∧ decode_values (default VUndefined (props !! KEY_IV))
        (default VUndefined (props !! KEY_CIPHERTEXT)) = Return (iv1, ct)
    ∧ MslCiphertextEnvelope_init k iv1 ct = Return e.
Proof.
  rewrite parse_object.
  destruct (determine_version _ hint) as [v|] eqn:Hv; [|discriminate]. cbn.
  destruct (verify_values _ _ _ _ _ _ _) as [k|] eqn:Hk; [|discriminate]. cbn.
  destruct (decode_values _ _) as [[iv1 ct]|] eqn:Hd; [|discriminate]. cbn.
  intros Hinit. by exists v, k, iv1, ct.
Qed.


(** The members of a serialized envelope: a version 1 envelope has
    [keyid], [ciphertext] and [sha256] and neither [version] nor
    [cipherspec]; a version 2 envelope has [version], [cipherspec] and
    [ciphertext] and neither [keyid] nor [sha256]; [iv] is there exactly
    when the vector is truthy. *)
Theorem toJSON_members (this : MslCiphertextEnvelope) :
  dom (toJSON this)
  = (match version this with
     | V1 => {[KEY_KEY_ID; KEY_CIPHERTEXT; KEY_SHA256]}
     | V2 => {[KEY_VERSION; KEY_CIPHERSPEC; KEY_CIPHERTEXT]}
     end : gset string)
    ∪ (if ToBoolean (iv this) then {[KEY_IV]} else ∅).
Proof.
  unfold toJSON, put_iv.
  destruct (version this), (ToBoolean (iv this));
    rewrite ?dom_insert_L, dom_empty_L; set_solver.
Qed.

(** [determine_version] reads the [version] member only. *)
Lemma determine_version_ext (props props' : gmap string value) hint :
  props !! KEY_VERSION = props' !! KEY_VERSION →
  determine_version (VObject props) hint = determine_version (VObject props') hint.
Proof. intros Hv. unfold determine_version. cbn. by rewrite Hv. Qed.

(** [verify_values] reads, of the object itself, the [version] member only. *)
Lemma verify_values_ext (props props' : gmap string value) v k c i t s :
  props !! KEY_VERSION = props' !! KEY_VERSION →
  verify_values (VObject props) v k c i t s = verify_values (VObject props') v k c i t s.
Proof. intros Hv. unfold verify_values. cbn. by rewrite Hv. Qed.

(** In the model, where an exception is its class, error constant and
    cause, two objects that differ in the text under [sha256] only parse
    alike. *)
Lemma parse_sha256_text_ext (props : gmap string value) (hint : value) (s s' : string) :
  MslCiphertextEnvelope_parse (VObject (<[KEY_SHA256 := VStr s]> props)) hint
  = MslCiphertextEnvelope_parse (VObject (<[KEY_SHA256 := VStr s']> props)) hint.
Proof.
  rewrite !parse_object.
  rewrite (determine_version_ext _ (<[KEY_SHA256 := VStr s']> props))
    by (by rewrite !lookup_insert_ne).
  destruct (determine_version _ hint) as [v|e]; [|reflexivity]. cbn.
  rewrite (verify_values_ext _ (<[KEY_SHA256 := VStr s']> props))
    by (by rewrite !lookup_insert_ne).
  rewrite !lookup_insert_eq, !lookup_insert_ne by done. cbn.
  unfold verify_values. destruct (switch_version v) as [[|]|]; reflexivity.
Qed.

(** [parse] never looks into the text of the [sha256] member to decide
    anything: under every hint, an object parses to an envelope exactly
    when the object with any other text under [sha256] parses to that same
    envelope, and it fails with an exception of a given class, error
    constant and cause exactly when the other does.  The message of the
    exception, which quotes the whole object and so the [sha256] text, is
    not part of [exn] and is not compared. *)
Theorem parse_ignores_sha256_text (props : gmap string value) (hint : value) (s s' : string) :
  (∀ e : MslCiphertextEnvelope,
     MslCiphertextEnvelope_parse (VObject (<[KEY_SHA256 := VStr s]> props)) hint = Return e
     ↔ MslCiphertextEnvelope_parse (VObject (<[KEY_SHA256 := VStr s']> props)) hint = Return e)
  ∧ (∀ x : exn,
       MslCiphertextEnvelope_parse (VObject (<[KEY_SHA256 := VStr s]> props)) hint = Throw x
       ↔ MslCiphertextEnvelope_parse (VObject (<[KEY_SHA256 := VStr s']> props)) hint = Throw x).
Proof.
  rewrite (parse_sha256_text_ext props hint s s'). split; intros; reflexivity.
Qed.

(** Under version 1, a [keyid], [ciphertext] or [sha256] member that is
    missing or not a string, or a truthy [iv] member that is not a string,
    fails the parse with the JSON-parse encoding error. *)
Theorem parse_V1_rejects_ill_typed_members (props : gmap string value) (hint : value) :
  envelope_version (VObject props) hint = Return V1 →
  is_string (default VUndefined (props !! KEY_KEY_ID)) = false
  ∨ (ToBoolean (default VUndefined (props !! KEY_IV)) = true
     ∧ is_string (default VUndefined (props !! KEY_IV)) = false)
  ∨ is_string (default VUndefined (props !! KEY_CIPHERTEXT)) = false
  ∨ is_string (default VUndefined (props !! KEY_SHA256)) = false →
  MslCiphertextEnvelope_parse (VObject props) hint
  = Throw (MslEncodingException JSON_PARSE_ERROR)
  ∧ error_class (MslEncodingException JSON_PARSE_ERROR) = Some EncodingError.
Proof.
  intros Hver Hbad. split; [|reflexivity].
  rewrite parse_object. unfold envelope_version in Hver.
  destruct (determine_version (VObject props) hint) as [v|e]; [|discriminate].
  cbn in Hver. cbn. unfold verify_values. rewrite Hver. cbn.
  destruct Hbad as [-> | [[-> ->] | [-> | ->]]]; cbn; by rewrite ?orb_true_r.
Qed.

(** Under version 2 with a [version] member equal to 2, a [cipherspec] or
    [ciphertext] member that is missing or not a string, or a truthy [iv]
    member that is not a string, fails the parse with the JSON-parse
    encoding error; [sha256] and [keyid] are not asked for. *)
Theorem parse_V2_rejects_ill_typed_members (props : gmap string value) (hint : value) :
  envelope_version (VObject props) hint = Return V2 →
  loose_eq_number (default VUndefined (props !! KEY_VERSION)) (Version_number V2) = true →
  is_string (default VUndefined (props !! KEY_CIPHERSPEC)) = false
  ∨ (ToBoolean (default VUndefined (props !! KEY_IV)) = true
     ∧ is_string (default VUndefined (props !! KEY_IV)) = false)
  ∨ is_string (default VUndefined (props !! KEY_CIPHERTEXT)) = false →
  MslCiphertextEnvelope_parse (VObject props) hint
  = Throw (MslEncodingException JSON_PARSE_ERROR)
  ∧ error_class (MslEncodingException JSON_PARSE_ERROR) = Some EncodingError.
Proof.
  intros Hver Hv Hbad. split; [|reflexivity].
  rewrite parse_object. unfold envelope_version in Hver.
  destruct (determine_version (VObject props) hint) as [v|e]; [|discriminate].
  cbn in Hver. cbn. unfold verify_values. rewrite Hver. cbn. cbn in Hv. rewrite Hv. cbn.
  destruct Hbad as [-> | [[-> ->] | ->]]; cbn; by rewrite ?orb_true_r.
Qed.

(** A hint that is truthy and is neither the number 1 nor the number 2 (the
    number 3, the string ["1"]) fails the parse of every object with the
    unsupported-envelope error, a protocol mismatch. *)
Theorem parse_unsupported_hint (props : gmap string value) (hint : value) :
  ToBoolean hint = true →
  strict_eq_number hint (Version_number V1) = false →
  strict_eq_number hint (Version_number V2) = false →
  MslCiphertextEnvelope_parse (VObject props) hint
  = Throw (MslCryptoException UNSUPPORTED_CIPHERTEXT_ENVELOPE None)
  ∧ error_class (MslCryptoException UNSUPPORTED_CIPHERTEXT_ENVELOPE None)
    = Some ProtocolMismatchError.
Proof.
  intros Ht H1 H2. split; [|reflexivity].
  rewrite parse_object, determine_version_hint by done. cbn.
  unfold verify_values, switch_version. by rewrite H1, H2.
Qed.

(** What [determine_version] can throw on an object. *)
Lemma determine_version_throws (props : gmap string value) hint e :
  determine_version (VObject props) hint = Throw e →
  e = MslCryptoException UNIDENTIFIED_CIPHERTEXT_ENVELOPE None.
Proof.
  unfold determine_version. cbn.
  repeat match goal with |- context [if ?c then _ else _] => destruct c end;
    congruence.
Qed.

(** What [verify_values] can throw on an object. *)
Lemma verify_values_throws (props : gmap string value) v k c i t s e :
  verify_values (VObject props) v k c i t s = Throw e →
  e = MslEncodingException JSON_PARSE_ERROR
  ∨ e = MslCryptoException UNIDENTIFIED_CIPHERTEXT_ENVELOPE None
  ∨ e = MslCryptoException UNSUPPORTED_CIPHERTEXT_ENVELOPE None
  ∨ e = MslCryptoException UNIDENTIFIED_CIPHERSPEC None.
Proof.
  unfold verify_values, switch_version. cbn.
  repeat match goal with
         | |- context [if ?c then _ else _] => destruct c; cbn
         | |- context [match MslConstants_CipherSpec_fromString ?x with _ => _ end] =>
             destruct (MslConstants_CipherSpec_fromString x); cbn
         end;
    intros [= <-]; auto.
Qed.

(** What [decode_values] can throw: the envelope-parse error around what
    base64 threw, on the vector first. *)
Lemma decode_values_throws iv0 ct0 e :
  decode_values iv0 ct0 = Throw e →
  ∃ cause, e = MslCryptoException CIPHERTEXT_ENVELOPE_PARSE_ERROR (Some cause)
    ∧ (ToBoolean iv0 = true ∧ base64_decode (text_of iv0) = Throw cause
       ∨ base64_decode (text_of ct0) = Throw cause).
Proof.
  unfold decode_values. destruct (ToBoolean iv0) eqn:Hiv; cbn.
  - destruct (base64_decode (text_of iv0)) as [bytes|cause] eqn:Hd; cbn.
    + destruct (base64_decode (text_of ct0)) as [c|cause]; cbn; [discriminate|].
      intros [= <-]. eauto.
    + intros [= <-]. eauto.
  - destruct (base64_decode (text_of ct0)) as [c|cause]; cbn; [discriminate|].
    intros [= <-]. eauto.
Qed.

(** The failures of a parse of an object. *)
Lemma parse_throws (props : gmap string value) hint e :
  MslCiphertextEnvelope_parse (VObject props) hint = Throw e →
  e = MslEncodingException JSON_PARSE_ERROR
  ∨ e = MslCryptoException UNIDENTIFIED_CIPHERTEXT_ENVELOPE None
  ∨ e = MslCryptoException UNSUPPORTED_CIPHERTEXT_ENVELOPE None
  ∨ e = MslCryptoException UNIDENTIFIED_CIPHERSPEC None
  ∨ ∃ cause, e = MslCryptoException CIPHERTEXT_ENVELOPE_PARSE_ERROR (Some cause)
      ∧ (base64_decode (text_of (default VUndefined (props !! KEY_IV))) = Throw cause
         ∨ base64_decode (text_of (default VUndefined (props !! KEY_CIPHERTEXT)))
           = Throw cause).
Proof.
  rewrite parse_object.
  destruct (determine_version _ hint) as [v|e0] eqn:Hv; cbn.
  - destruct (verify_values _ _ _ _ _ _ _) as [k|e1] eqn:Hk; cbn.
    + destruct (decode_values _ _) as [[iv1 ct]|e2] eqn:Hd; cbn.
      * destruct (init_delivers k iv1 ct) as (e' & -> & _). discriminate.
      * intros [= <-]. apply decode_values_throws in Hd as (cause & -> & Hc).
        do 4 right. exists cause. split; [done|]. tauto.
    + intros [= <-]. apply verify_values_throws in Hk. tauto.
  - intros [= <-]. apply determine_version_throws in Hv. auto.
Qed.

(** Every failure of a parse of an object is one of five: the JSON-parse
    encoding error, the unidentified-envelope, unsupported-envelope or
    unidentified-cipher-specification error without a cause, or the
    envelope-parse error whose cause is what base64 threw on the [iv] or the
    [ciphertext] text.  [parse] throws nothing else, and none of these is
    outside [MslException]. *)
Theorem parse_failures (props : gmap string value) (hint : value) (e : exn) :
  MslCiphertextEnvelope_parse (VObject props) hint = Throw e →
  (e = MslEncodingException JSON_PARSE_ERROR
   ∨ e = MslCryptoException UNIDENTIFIED_CIPHERTEXT_ENVELOPE None
   ∨ e = MslCryptoException UNSUPPORTED_CIPHERTEXT_ENVELOPE None
   ∨ e = MslCryptoException UNIDENTIFIED_CIPHERSPEC None
   ∨ ∃ cause, e = MslCryptoException CIPHERTEXT_ENVELOPE_PARSE_ERROR (Some cause)
       ∧ (base64_decode (text_of (default VUndefined (props !! KEY_IV))) = Throw cause
          ∨ base64_decode (text_of (default VUndefined (props !! KEY_CIPHERTEXT)))
            = Throw cause))
  ∧ instanceof_MslException e = true.
Proof.
  intros Hthrow. pose proof (parse_throws _ _ _ Hthrow) as Hcases.
  split; [exact Hcases|].
  destruct Hcases as [-> | [-> | [-> | [-> | (cause & -> & _)]]]]; reflexivity.
Qed.

(** Under version 1 with well-typed members, a [ciphertext] text (or a
    non-empty [iv] text) that base64 refuses fails the parse with the
    envelope-parse error, and what base64 threw is its cause. *)
Theorem parse_V1_base64_failure (props : gmap string value) (hint : value)
    (k t c s : string) (cause : exn) :
  envelope_version (VObject props) hint = Return V1 →
  props !! KEY_KEY_ID = Some (VStr k) →
  props !! KEY_CIPHERTEXT = Some (VStr c) →
  props !! KEY_SHA256 = Some (VStr s) →
  (props !! KEY_IV = Some (VStr t) ∧ t ≠ "" ∧ base64_decode t = Throw cause)
  ∨ (ToBoolean (default VUndefined (props !! KEY_IV)) = false
     ∧ base64_decode c = Throw cause) →
  MslCiphertextEnvelope_parse (VObject props) hint
  = Throw (MslCryptoException CIPHERTEXT_ENVELOPE_PARSE_ERROR (Some cause)).
Proof.
  intros Hver Hk Hc Hs Hbad.
  rewrite parse_object. unfold envelope_version in Hver.
  destruct (determine_version (VObject props) hint) as [v|e]; [|discriminate].
  cbn in Hver. cbn. unfold verify_values. rewrite Hver, Hk, Hc, Hs. cbn.
  destruct Hbad as [(Hiv & Hne & Hd) | (Hiv & Hd)].
  - rewrite Hiv. cbn. unfold decode_values. cbn.
    destruct t as [|a t']; [done|]. cbn. by rewrite Hd.
  - rewrite !Hiv. cbn. unfold decode_values. rewrite Hiv. cbn. by rewrite Hd.
Qed.

(** The envelope of a successful parse under the version 1 hint. *)
Lemma parse_V1_hint_shape (jsonObj : value) (e : MslCiphertextEnvelope) :
  MslCiphertextEnvelope_parse jsonObj (VNum (Version_number V1)) = Return e →
  ∃ k, Get jsonObj KEY_KEY_ID = Return (VStr k)
    ∧ (¬ In k (map snd MslConstants_CipherSpec)
         ∧ version e = V1 ∧ keyId e = Some k ∧ cipherSpec e = None
       ∨ In k (map snd MslConstants_CipherSpec)
         ∧ version e = V2 ∧ keyId e = None ∧ cipherSpec e = Some k).
Proof.
  intros Hparse.
  destruct (parse_succeeds_on_object _ _ _ Hparse) as [props ->].
  destruct (parse_inv _ _ _ Hparse) as (v & k & iv1 & ct & Hv & Hk & _ & Hinit).
  rewrite determine_version_hint in Hv by reflexivity. injection Hv as <-.
  unfold verify_values in Hk. cbn in Hk.
  destruct (default VUndefined (props !! KEY_KEY_ID)) as [| |b|n|k'|bytes|o] eqn:Hkid;
    try discriminate.
  cbn in Hk.
  match type of Hk with context [if ?c then _ else _] => destruct c end; [discriminate|].
  injection Hk as <-.
  exists k'. split; [cbn; by rewrite Hkid|].
  destruct (init_shape k' iv1 ct) as [[E Hin] | [E Hin]];
    rewrite E in Hinit; injection Hinit as <-; cbn; auto 10.
Qed.

(** Under the version 1 hint a successful parse read a string under
    [keyid]; when that string is no recognized cipher specification the
    envelope is a version 1 envelope with it as key ID, and when it is one
    the envelope that comes back is a version 2 envelope with a null key ID
    and the string as cipher specification. *)
Theorem parse_V1_hint_key_id (jsonObj : value) (e : MslCiphertextEnvelope) :
  MslCiphertextEnvelope_parse jsonObj (VNum (Version_number V1)) = Return e →
  ∃ k, Get jsonObj KEY_KEY_ID = Return (VStr k)
    ∧ (¬ In k (map snd MslConstants_CipherSpec)
         ∧ version e = V1 ∧ keyId e = Some k ∧ cipherSpec e = None
       ∨ In k (map snd MslConstants_CipherSpec)
         ∧ version e = V2 ∧ keyId e = None ∧ cipherSpec e = Some k).
Proof. apply parse_V1_hint_shape. Qed.


(** With no hint, a [version] member that is the number 2 gives version 2. *)
Lemma determine_version_member_V2 (props : gmap string value) hint :
  ToBoolean hint = false →
  props !! KEY_VERSION = Some (VNum (Version_number V2)) →
  determine_version (VObject props) hint = Return (VNum (Version_number V2)).
Proof. intros Hh Hv. unfold determine_version. rewrite Hh. cbn. by rewrite Hv. Qed.

(** The version 2 checks on well-typed members and a mapped specification. *)
Lemma verify_values_V2_ok (props : gmap string value) k c c' i t s :
  props !! KEY_VERSION = Some (VNum (Version_number V2)) →
  ToBoolean i && negb (is_string i) = false →
  MslConstants_CipherSpec_fromString c = Some c' →
  c' ≠ "" →
  verify_values (VObject props) (VNum (Version_number V2)) k (VStr c) i (VStr t) s
  = Return c'.
Proof.
  intros Hv Hi Hmap Hne. unfold verify_values. cbn. rewrite Hv. cbn.
  rewrite Hi, Hmap. cbn. by destruct c'.
Qed.

Section RoundTrip2.
Hypothesis decode_encode :
  ∀ bytes, base64_decode (base64_encode (VUint8Array bytes)) = Return bytes.

(** An object without a [version] member parses the same with no hint and
    under the version 1 hint. *)
Lemma parse_absent_version (props : gmap string value) :
  props !! KEY_VERSION = None →
  MslCiphertextEnvelope_parse (VObject props) VNull
  = MslCiphertextEnvelope_parse (VObject props) (VNum (Version_number V1)).
Proof.
  intros Hv. rewrite !parse_object.
  rewrite (determine_version_fallback props VNull) by (try rewrite Hv; cbn; auto).
  by rewrite determine_version_hint.
Qed.

(** The parse of a serialized version 1 envelope under the version 1 hint. *)
Lemma V1_round_trip_hint_V1 (k : string) (iv0 : value) (ct : list byte) :
  ¬ In k (map snd MslConstants_CipherSpec) →
  ToBoolean iv0 = false
  ∨ (∃ bytes, iv0 = VUint8Array bytes ∧ base64_encode iv0 ≠ "") →
  ∃ e',
    MslCiphertextEnvelope_parse
      (VObject (toJSON {| version := V1; keyId := Some k; cipherSpec := None;
                          iv := iv0; ciphertext := ct |}))
      (VNum (Version_number V1)) = Return e'
    ∧ version e' = V1
    ∧ keyId e' = Some k
    ∧ iv_bytes (iv e') = iv_bytes iv0
    ∧ ciphertext e' = ct.
Proof.
  intros Hk Hiv.
  destruct (V1_round_trip decode_encode k iv0 ct Hk Hiv)
    as (e & e' & Hc & _ & Hp & Hrest).
  rewrite (create_key_id k iv0 ct Hk) in Hc. injection Hc as <-.
  exists e'. split; [|exact Hrest].
  rewrite <- Hp. symmetry. apply parse_absent_version.
  apply (toJSON_V1_lookup (Some k) None iv0 ct).
Qed.

(** Serializing a version 1 envelope (a key ID that is no recognized cipher
    specification, a vector that is falsy or a byte array with a non-empty
    base64 text) and parsing the object back restores the key ID, the
    vector's bytes and the ciphertext, with no hint as well as under the
    version 1 hint. *)
Theorem V1_round_trip_hinted (k : string) (iv0 : value) (ct : list byte) (hint : value) :
  ¬ In k (map snd MslConstants_CipherSpec) →
  ToBoolean iv0 = false
  ∨ (∃ bytes, iv0 = VUint8Array bytes ∧ base64_encode iv0 ≠ "") →
  hint = VNull ∨ hint = VUndefined ∨ hint = VNum (Version_number V1) →
  ∃ e e',
    MslCiphertextEnvelope_create k iv0 ct = Return e
    ∧ version e = V1
    ∧ MslCiphertextEnvelope_parse (VObject (toJSON e)) hint = Return e'
    ∧ version e' = V1
    ∧ keyId e' = Some k
    ∧ iv_bytes (iv e') = iv_bytes iv0
    ∧ ciphertext e' = ct.
Proof.
  intros Hk Hiv Hhint.
  destruct (V1_round_trip_hint_V1 k iv0 ct Hk Hiv) as (e' & Hp & Hrest).
  exists {| version := V1; keyId := Some k; cipherSpec := None;
            iv := iv0; ciphertext := ct |}, e'.
  split; [by apply create_key_id|]. split; [reflexivity|]. split; [|exact Hrest].
  destruct Hhint as [-> | [-> | ->]]; [| |exact Hp]; rewrite <- Hp.
  - apply parse_absent_version. apply (toJSON_V1_lookup (Some k) None iv0 ct).
  - rewrite !parse_object.
    rewrite (determine_version_fallback _ VUndefined)
      by (try rewrite (proj1 (proj2 (proj2 (proj2 (proj2
             (toJSON_V1_lookup (Some k) None iv0 ct)))))); cbn; auto).
    by rewrite determine_version_hint.
Qed.

(** Serializing a version 2 envelope whose cipher specification the
    enumeration maps to itself, and whose vector is falsy or a byte array
    with a non-empty base64 text, and parsing the object back with no hint,
    restores the cipher specification, the vector's bytes and the
    ciphertext. *)
Theorem V2_round_trip (spec : string) (iv0 : value) (ct : list byte) :
  In spec (map snd MslConstants_CipherSpec) →
  MslConstants_CipherSpec_fromString spec = Some spec →
  spec ≠ "" →
  ToBoolean iv0 = false
  ∨ (∃ bytes, iv0 = VUint8Array bytes ∧ base64_encode iv0 ≠ "") →
  ∃ e e',
    MslCiphertextEnvelope_create spec iv0 ct = Return e
    ∧ version e = V2
    ∧ MslCiphertextEnvelope_parse (VObject (toJSON e)) VNull = Return e'
    ∧ version e' = V2
    ∧ keyId e' = None
    ∧ cipherSpec e' = Some spec
    ∧ iv_bytes (iv e') = iv_bytes iv0
    ∧ ciphertext e' = ct.
Proof.
  intros Hin Hmap Hne Hiv.
  assert (Hinit : ∀ iv1, MslCiphertextEnvelope_init spec iv1 ct
            = Return {| version := V2; keyId := None; cipherSpec := Some spec;
                        iv := iv1; ciphertext := ct |}).
  { intros iv1. unfold MslCiphertextEnvelope_init. by rewrite init_loop_hit. }
  destruct (toJSON_V2_lookup None (Some spec) iv0 ct) as (Hver & Hcs & Hjiv & Hjct & _).
  cbv zeta in Hver, Hcs, Hjiv, Hjct.
  exists {| version := V2; keyId := None; cipherSpec := Some spec;
            iv := iv0; ciphertext := ct |}.
  assert (Hstep : ∀ iv1,
    decode_values (default VUndefined (toJSON {| version := V2; keyId := None;
        cipherSpec := Some spec; iv := iv0; ciphertext := ct |} !! KEY_IV))
      (VStr (base64_encode (VUint8Array ct))) = Return (iv1, ct) →
    MslCiphertextEnvelope_parse (VObject (toJSON {| version := V2; keyId := None;
        cipherSpec := Some spec; iv := iv0; ciphertext := ct |})) VNull
    = Return {| version := V2; keyId := None; cipherSpec := Some spec;
                iv := iv1; ciphertext := ct |}).
  { intros iv1 Hdec. rewrite parse_object.
    rewrite (determine_version_member_V2 _ VNull) by done. cbn [mbind completion_bind].
    rewrite Hcs, Hjct. cbn [default from_option nullable].
    change (Datatypes.id (VStr spec)) with (VStr spec).
    change (Datatypes.id (VStr (base64_encode (VUint8Array ct))))
      with (VStr (base64_encode (VUint8Array ct))).
    rewrite (verify_values_V2_ok _ _ spec spec) by
      (try done; rewrite Hjiv; destruct (ToBoolean iv0); cbn; by rewrite ?andb_false_r).
    cbn [mbind completion_bind]. rewrite Hdec. cbn. apply Hinit. }
  destruct Hiv as [Hf | (bytes & -> & Henc)].
  - exists {| version := V2; keyId := None; cipherSpec := Some spec;
              iv := VUndefined; ciphertext := ct |}.
    split; [apply Hinit|]. split; [reflexivity|]. split.
    + apply Hstep. rewrite Hjiv, Hf. cbn. unfold decode_values. cbn.
      by rewrite decode_encode.
    + repeat split. cbn. destruct iv0; try reflexivity; discriminate.
  - exists {| version := V2; keyId := None; cipherSpec := Some spec;
              iv := VUint8Array bytes; ciphertext := ct |}.
    split; [apply Hinit|]. split; [reflexivity|]. split.
    + apply Hstep. rewrite Hjiv. cbn. unfold decode_values.
      destruct (base64_encode (VUint8Array bytes)) as [|a rest] eqn:E; [done|].
      cbn. rewrite <- E, !decode_encode. reflexivity.
    + repeat split.
Qed.
End RoundTrip2.

End EnvelopeFurther.

(** ** The RSA crypto context *)

Section ContextFurther.
Context `{EnvelopeCollaborators} `{ContextCollaborators}.

(** The mode leaves exactly one of the three selectors active, and the
    constructor keeps the identity and the raw keys of the handles. *)
Theorem init_one_selector_active (id0 : string) (priv pub : option KeyHandle) (mode : Mode) :
  let self := RsaCryptoContext_init id0 priv pub mode in
  id self = id0
  ∧ privateKey self = extract_rawKey priv
  ∧ publicKey self = extract_rawKey pub
  ∧ ((mode = ENCRYPT_DECRYPT_OAEP ∨ mode = ENCRYPT_DECRYPT_PKCS1)
       ∧ is_NULL_OP (transform self) = false
       ∧ wrapTransform self = NULL_OP ∧ algo self = NULL_OP
     ∨ (mode = WRAP_UNWRAP_OAEP ∨ mode = WRAP_UNWRAP_PKCS1)
       ∧ transform self = NULL_OP
       ∧ is_NULL_OP (wrapTransform self) = false ∧ algo self = NULL_OP
     ∨ mode = SIGN_VERIFY
       ∧ transform self = NULL_OP ∧ wrapTransform self = NULL_OP
       ∧ algo self = Algorithm RSASSA_SHA256).
Proof. destruct mode; cbn; repeat split; auto 10. Qed.

Lemma init_transform_inactive id0 priv pub mode :
  mode ≠ ENCRYPT_DECRYPT_OAEP → mode ≠ ENCRYPT_DECRYPT_PKCS1 →
  transform (RsaCryptoContext_init id0 priv pub mode) = NULL_OP.
Proof. by destruct mode. Qed.

(** In every mode other than the two encrypt/decrypt modes, [encrypt] and
    [decrypt] deliver their input unchanged, whatever its length and
    whichever keys the context holds, with no call to the provider. *)
Theorem encrypt_decrypt_pass_through (id0 : string) (priv pub : option KeyHandle)
    (mode : Mode) (data : list byte) :
  mode ≠ ENCRYPT_DECRYPT_OAEP → mode ≠ ENCRYPT_DECRYPT_PKCS1 →
  encrypt (RsaCryptoContext_init id0 priv pub mode) data = Result data
  ∧ decrypt (RsaCryptoContext_init id0 priv pub mode) data = Result data.
Proof.
  intros Hoaep Hpkcs. unfold encrypt, decrypt.
  by rewrite init_transform_inactive.
Qed.

(** In an encrypt/decrypt mode, [encrypt] without a public key and
    [decrypt] without a private key fail on every input, the zero-length
    one included, with the not-supported error of the operation. *)
Theorem encrypt_decrypt_missing_key (id0 : string) (priv pub : option KeyHandle)
    (mode : Mode) (data : list byte) :
  mode = ENCRYPT_DECRYPT_OAEP ∨ mode = ENCRYPT_DECRYPT_PKCS1 →
  (ToBoolean (extract_rawKey pub) = false →
   encrypt (RsaCryptoContext_init id0 priv pub mode) data
   = Error (MslCryptoException ENCRYPT_NOT_SUPPORTED None))
  ∧ (ToBoolean (extract_rawKey priv) = false →
     decrypt (RsaCryptoContext_init id0 priv pub mode) data
     = Error (MslCryptoException DECRYPT_NOT_SUPPORTED None)).
Proof.
  intros Hmode. unfold encrypt, decrypt.
  rewrite init_transform_active by done.
  cbn [publicKey privateKey RsaCryptoContext_init].
  split; by intros ->.
Qed.

(** A context in an encrypt/decrypt mode that holds a private key delivers
    a zero-length input of [decrypt] unchanged, with no call to the provider
    and without reading it as an envelope. *)
Theorem decrypt_empty_unchanged (id0 : string) (priv pub : option KeyHandle) (mode : Mode) :
  mode = ENCRYPT_DECRYPT_OAEP ∨ mode = ENCRYPT_DECRYPT_PKCS1 →
  ToBoolean (extract_rawKey priv) = true →
  decrypt (RsaCryptoContext_init id0 priv pub mode) [] = Result [].
Proof.
  intros Hmode Hpriv. unfold decrypt. rewrite init_transform_active by done.
  cbn [privateKey RsaCryptoContext_init]. by rewrite Hpriv.
Qed.

(** The active path of [encrypt]. *)
Lemma encrypt_active (id0 : string) (priv pub : option KeyHandle) (mode : Mode)
    (data : list byte) :
  mode = ENCRYPT_DECRYPT_OAEP ∨ mode = ENCRYPT_DECRYPT_PKCS1 →
  ToBoolean (extract_rawKey pub) = true →
  data ≠ [] →
  ∃ oncomplete,
    encrypt (RsaCryptoContext_init id0 priv pub mode) data
    = Await (mslCrypto_encrypt (transform (RsaCryptoContext_init id0 priv pub mode))
               (extract_rawKey pub) data)
        oncomplete (Error (MslCryptoException ENCRYPT_ERROR None))
    ∧ ∀ ciphertext,
        oncomplete ciphertext
        = match MslCiphertextEnvelope_create id0 VNull ciphertext with
          | Return envelope =>
              match (json ← JSON_stringify (VObject (toJSON envelope));
                     textEncoding_getBytes json) with
              | Return bytes => Result bytes
              | Throw e => Error (MslCryptoException ENCRYPT_ERROR (Some e))
              end
          | Throw e =>
              Error (if negb (instanceof_MslException e)
                     then MslCryptoException ENCRYPT_ERROR (Some e)
                     else e)
          end.
Proof.
  intros Hmode Hpub Hdata. eexists. split.
  - unfold encrypt. rewrite init_transform_active by done.
    cbn [publicKey id RsaCryptoContext_init]. rewrite Hpub. cbn [negb].
    destruct data as [|b rest]; [done|]. cbn [List.length Nat.eqb]. reflexivity.
  - reflexivity.
Qed.

(** A context in an encrypt/decrypt mode that holds a public key hands a
    non-empty input to the provider's [encrypt] with its transform and raw
    public key.  When the provider answers with a ciphertext and the
    identity is no recognized cipher specification, the result is the bytes
    of the JSON text of the object with [keyid] the identity, [ciphertext]
    the base64 of the answer, [sha256] the placeholder and no [iv]; when
    the provider rejects, the encrypt error is delivered. *)
Theorem encrypt_delivers_envelope (id0 : string) (priv pub : option KeyHandle) (mode : Mode)
    (data : list byte) :
  mode = ENCRYPT_DECRYPT_OAEP ∨ mode = ENCRYPT_DECRYPT_PKCS1 →
  ToBoolean (extract_rawKey pub) = true →
  data ≠ [] →
  ¬ In id0 (map snd MslConstants_CipherSpec) →
  ∃ oncomplete,
    encrypt (RsaCryptoContext_init id0 priv pub mode) data
    = Await (mslCrypto_encrypt (transform (RsaCryptoContext_init id0 priv pub mode))
               (extract_rawKey pub) data)
        oncomplete (Error (MslCryptoException ENCRYPT_ERROR None))
    ∧ ∀ ciphertext json bytes,
        JSON_stringify
          (VObject (<[KEY_SHA256 := VStr "AA=="]>
             (<[KEY_CIPHERTEXT := VStr (base64_encode (VUint8Array ciphertext))]>
                (<[KEY_KEY_ID := VStr id0]> ∅)))) = Return json →
        textEncoding_getBytes json = Return bytes →
        oncomplete ciphertext = Result bytes.
Proof.
  intros Hmode Hpub Hdata Hid.
  destruct (encrypt_active id0 priv pub mode data Hmode Hpub Hdata) as (k & Henc & Hk).
  exists k. split; [exact Henc|].
  intros ciphertext json bytes Hjson Hbytes.
  rewrite Hk, (create_key_id id0 VNull ciphertext Hid).
  change (toJSON {| version := V1; keyId := Some id0; cipherSpec := None;
                    iv := VNull; ciphertext := ciphertext |})
    with (<[KEY_SHA256 := VStr "AA=="]>
            (<[KEY_CIPHERTEXT := VStr (base64_encode (VUint8Array ciphertext))]>
               (<[KEY_KEY_ID := VStr id0]> (∅ : gmap string value)))).
  rewrite Hjson. cbn. by rewrite Hbytes.
Qed.

(** [decrypt] past its three guards. *)
Lemma decrypt_active (id0 : string) (priv pub : option KeyHandle) (mode : Mode)
    (data : list byte) :
  mode = ENCRYPT_DECRYPT_OAEP ∨ mode = ENCRYPT_DECRYPT_PKCS1 →
  ToBoolean (extract_rawKey priv) = true →
  data ≠ [] →
  decrypt (RsaCryptoContext_init id0 priv pub mode) data
  = match (json ← textEncoding_getString data; JSON_parse json) with
    | Throw e =>
        if instanceof_SyntaxError e
        then Error (MslCryptoException CIPHERTEXT_ENVELOPE_PARSE_ERROR (Some e))
        else Error (MslCryptoException DECRYPT_ERROR (Some e))
    | Return jo =>
        match MslCiphertextEnvelope_parse jo (VNum (Version_number V1)) with
        | Return envelope =>
            if keyId_differs (keyId envelope) id0
            then Error (MslCryptoException ENVELOPE_KEY_ID_MISMATCH None)
            else
              Await (mslCrypto_decrypt (transform (RsaCryptoContext_init id0 priv pub mode))
                       (extract_rawKey priv) (ciphertext envelope))
                (fun plaintext => Result plaintext)
                (Error (MslCryptoException DECRYPT_ERROR None))
        | Throw e =>
            let e := if instanceof_MslEncodingException e
                     then MslCryptoException CIPHERTEXT_ENVELOPE_ENCODE_ERROR (Some e)
                     else e in
            let e := if negb (instanceof_MslException e)
                     then MslCryptoException DECRYPT_ERROR (Some e)
                     else e in
            Error e
        end
    end.
Proof.
  intros Hmode Hpriv Hdata. unfold decrypt. rewrite init_transform_active by done.
  cbn [privateKey id RsaCryptoContext_init]. rewrite Hpriv. cbn [negb].
  destruct data as [|b rest]; [done|]. reflexivity.
Qed.

(** A context in an encrypt/decrypt mode that holds a private key, given
    a non-empty input whose text parses as a version 1 envelope with the
    context's identity as [keyid] (an identity that is no recognized cipher
    specification), hands the envelope's ciphertext to the provider's
    [decrypt] with its transform and raw private key; the provider's
    plaintext is the result, its rejection the decrypt error. *)
Theorem decrypt_matching_key_id (id0 : string) (priv pub : option KeyHandle) (mode : Mode)
    (data : list byte) (json : string) (jo : value) (envelope : MslCiphertextEnvelope) :
  mode = ENCRYPT_DECRYPT_OAEP ∨ mode = ENCRYPT_DECRYPT_PKCS1 →
  ToBoolean (extract_rawKey priv) = true →
  data ≠ [] →
  textEncoding_getString data = Return json →
  JSON_parse json = Return jo →
  MslCiphertextEnvelope_parse jo (VNum (Version_number V1)) = Return envelope →
  Get jo KEY_KEY_ID = Return (VStr id0) →
  ¬ In id0 (map snd MslConstants_CipherSpec) →
  ∃ oncomplete,
    decrypt (RsaCryptoContext_init id0 priv pub mode) data
    = Await (mslCrypto_decrypt (transform (RsaCryptoContext_init id0 priv pub mode))
               (extract_rawKey priv) (ciphertext envelope))
        oncomplete (Error (MslCryptoException DECRYPT_ERROR None))
    ∧ ∀ plaintext, oncomplete plaintext = Result plaintext.
Proof.
  intros Hmode Hpriv Hdata Htext Hjson Hparse Hkey Hid.
  rewrite decrypt_active by done. rewrite Htext. cbn [mbind completion_bind].
  rewrite Hjson, Hparse.
  destruct (parse_V1_hint_shape jo envelope Hparse) as (k & Hk & Hshape).
  rewrite Hkey in Hk. injection Hk as <-.
  destruct Hshape as [(_ & _ & Hkid & _) | (Hin & _)]; [|contradiction].
  rewrite Hkid. cbn. rewrite String.eqb_refl. cbn. eexists. split; reflexivity.
Qed.

(** A context whose identity is a recognized cipher specification refuses
    every envelope [decrypt] can parse, the one that carries that identity
    as [keyid] included: the constructor takes such a [keyid] for a cipher
    specification and leaves the key ID null. *)
Theorem decrypt_cipher_spec_identity (id0 : string) (priv pub : option KeyHandle) (mode : Mode)
    (data : list byte) (json : string) (jo : value) (envelope : MslCiphertextEnvelope) :
  mode = ENCRYPT_DECRYPT_OAEP ∨ mode = ENCRYPT_DECRYPT_PKCS1 →
  ToBoolean (extract_rawKey priv) = true →
  data ≠ [] →
  textEncoding_getString data = Return json →
  JSON_parse json = Return jo →
  MslCiphertextEnvelope_parse jo (VNum (Version_number V1)) = Return envelope →
  In id0 (map snd MslConstants_CipherSpec) →
  decrypt (RsaCryptoContext_init id0 priv pub mode) data
  = Error (MslCryptoException ENVELOPE_KEY_ID_MISMATCH None).
Proof.
  intros Hmode Hpriv Hdata Htext Hjson Hparse Hid.
  rewrite decrypt_active by done. rewrite Htext. cbn [mbind completion_bind].
  rewrite Hjson, Hparse.
  destruct (parse_V1_hint_shape jo envelope Hparse) as (k & _ & Hshape).
  destruct Hshape as [(Hnot & _ & Hkid & _) | (_ & _ & Hkid & _)]; rewrite Hkid; cbn.
  - destruct (String.eqb k id0) eqn:E; [|reflexivity].
    apply String.eqb_eq in E. subst k. contradiction.
  - reflexivity.
Qed.

(** How [decrypt] reports an input it cannot read, in an encrypt/decrypt
    mode with a private key and a non-empty input: a [SyntaxError] of the
    text decoding or of [JSON.parse] becomes the envelope-parse error and
    any other exception there the decrypt error, each with the exception as
    cause; a JSON text that is [null] becomes the decrypt error around the
    [TypeError]; an encoding exception of the envelope parse becomes the
    envelope-encode error around it; a crypto exception of the envelope
    parse is delivered as it is. *)
Theorem decrypt_unreadable_input (id0 : string) (priv pub : option KeyHandle) (mode : Mode)
    (data : list byte) :
  mode = ENCRYPT_DECRYPT_OAEP ∨ mode = ENCRYPT_DECRYPT_PKCS1 →
  ToBoolean (extract_rawKey priv) = true →
  data ≠ [] →
  let self := RsaCryptoContext_init id0 priv pub mode in
  (∀ e, (json ← textEncoding_getString data; JSON_parse json) = Throw e →
        decrypt self data
        = Error (MslCryptoException
                   (if instanceof_SyntaxError e
                    then CIPHERTEXT_ENVELOPE_PARSE_ERROR else DECRYPT_ERROR) (Some e)))
  ∧ ((json ← textEncoding_getString data; JSON_parse json) = Return VNull →
     decrypt self data = Error (MslCryptoException DECRYPT_ERROR (Some TypeError)))
  ∧ (∀ jo error,
       (json ← textEncoding_getString data; JSON_parse json) = Return jo →
       MslCiphertextEnvelope_parse jo (VNum (Version_number V1))
       = Throw (MslEncodingException error) →
       decrypt self data
       = Error (MslCryptoException CIPHERTEXT_ENVELOPE_ENCODE_ERROR
                  (Some (MslEncodingException error))))
  ∧ (∀ jo error cause,
       (json ← textEncoding_getString data; JSON_parse json) = Return jo →
       MslCiphertextEnvelope_parse jo (VNum (Version_number V1))
       = Throw (MslCryptoException error cause) →
       decrypt self data = Error (MslCryptoException error cause)).
Proof.
  intros Hmode Hpriv Hdata self. subst self.
  repeat split.
  - intros e He. rewrite decrypt_active by done. rewrite He.
    by destruct (instanceof_SyntaxError e).
  - intros Hjo. rewrite decrypt_active by done. by rewrite Hjo.
  - intros jo error Hjo Hp. rewrite decrypt_active by done. by rewrite Hjo, Hp.
  - intros jo error cause Hjo Hp. rewrite decrypt_active by done. by rewrite Hjo, Hp.
Qed.

(** What a parse can throw, on any value. *)
Lemma parse_throws_kind (jsonObj hint : value) (e : exn) :
  MslCiphertextEnvelope_parse jsonObj hint = Throw e →
  e = TypeError
  ∨ e = MslEncodingException JSON_PARSE_ERROR
  ∨ instanceof_MslCryptoException e = true.
Proof.
  destruct jsonObj as [| |b|n|s|bytes|props];
    try (intros [= <-]; by left).
  5: { intros Hp. apply parse_throws in Hp.
       destruct Hp as [-> | [-> | [-> | [-> | (cause & -> & _)]]]]; auto. }
  all: unfold MslCiphertextEnvelope_parse; cbn;
    (destruct (determine_version _ hint) as [v|e0] eqn:Hv; cbn;
     [ unfold verify_values; destruct (switch_version v) as [[|]|e1] eqn:Hs; cbn;
       [ intros [= <-]; auto
       | intros [= <-]; auto
       | unfold switch_version in Hs;
         repeat match type of Hs with context [if ?c then _ else _] => destruct c end;
         try discriminate; injection Hs as <-; intros [= <-]; auto ]
     | unfold determine_version in Hv; cbn in Hv;
       repeat match type of Hv with context [if ?c then _ else _] => destruct c end;
       try discriminate; injection Hv as <-; intros [= <-]; auto ]).
Qed.

(** Whatever the input and whatever the provider answers, every error that
    [encrypt], [decrypt] and [wrap] deliver is a crypto exception: the
    exceptions of the runtime and of the envelope codec reach the callback
    only as the cause of one. *)
Theorem errors_are_crypto_exceptions (self : RsaCryptoContext) (data : list byte)
    (key : KeyHandle) :
  every_error (λ e, instanceof_MslCryptoException e = true) (encrypt self data)
  ∧ every_error (λ e, instanceof_MslCryptoException e = true) (decrypt self data)
  ∧ every_error (λ e, instanceof_MslCryptoException e = true) (wrap self key).
Proof.
  repeat split.
  - unfold encrypt.
    destruct (is_NULL_OP (transform self)); [exact I|].
    destruct (negb (ToBoolean (publicKey self))); [reflexivity|].
    destruct (Nat.eqb (List.length data) 0); [exact I|].
    cbn. split; [|reflexivity].
    intros ciphertext. unfold MslCiphertextEnvelope_create.
    destruct (init_delivers (id self) VNull ciphertext) as (e & -> & _).
    destruct (JSON_stringify _) as [json|e0]; cbn; [|reflexivity].
    destruct (textEncoding_getBytes json); cbn; [exact I | reflexivity].
  - unfold decrypt.
    destruct (is_NULL_OP (transform self)); [exact I|].
    destruct (negb (ToBoolean (privateKey self))); [reflexivity|].
    destruct (Nat.eqb (List.length data) 0); [exact I|].
    destruct (json ← textEncoding_getString data; JSON_parse json) as [jo|e].
    + destruct (MslCiphertextEnvelope_parse jo _) as [envelope|e] eqn:Hp.
      * destruct (keyId_differs _ _); cbn; [reflexivity|]. split; [intros; exact I | reflexivity].
      * apply parse_throws_kind in Hp as [-> | [-> | Hc]]; cbn; try reflexivity.
        destruct e; try discriminate. reflexivity.
    + destruct (instanceof_SyntaxError e); reflexivity.
  - unfold wrap.
    destruct (_ || _); [reflexivity|]. cbn. split; [intros; exact I | reflexivity].
Qed.

(** For a context whose identity is no recognized cipher specification,
    what [encrypt] delivers for a ciphertext of the provider, [decrypt] of
    the same context reads back: given the runtime's text and JSON round
    trip on those bytes and base64's round trip, [decrypt] hands that very
    ciphertext to the provider's [decrypt] with the raw private key.  (An
    identity that is a recognized cipher specification makes a version 2
    envelope, which [decrypt] does not read: this statement is not about
    it.) *)
Theorem encrypt_then_decrypt (id0 : string) (priv pub : option KeyHandle) (mode : Mode)
    (data ciphertext : list byte) (json : string) (bytes : list byte) :
  mode = ENCRYPT_DECRYPT_OAEP ∨ mode = ENCRYPT_DECRYPT_PKCS1 →
  ToBoolean (extract_rawKey pub) = true →
  ToBoolean (extract_rawKey priv) = true →
  data ≠ [] →
  ¬ In id0 (map snd MslConstants_CipherSpec) →
  (∀ b, base64_decode (base64_encode (VUint8Array b)) = Return b) →
  let jo := VObject (toJSON {| version := V1; keyId := Some id0; cipherSpec := None;
                               iv := VNull; ciphertext := ciphertext |}) in
  JSON_stringify jo = Return json →
  textEncoding_getBytes json = Return bytes →
  bytes ≠ [] →
  textEncoding_getString bytes = Return json →
  JSON_parse json = Return jo →
  let self := RsaCryptoContext_init id0 priv pub mode in
  ∃ oncomplete onerror,
    encrypt self data
    = Await (mslCrypto_encrypt (transform self) (extract_rawKey pub) data) oncomplete onerror
    ∧ oncomplete ciphertext = Result bytes
    ∧ ∃ oncomplete',
        decrypt self bytes
        = Await (mslCrypto_decrypt (transform self) (extract_rawKey priv) ciphertext)
            oncomplete' (Error (MslCryptoException DECRYPT_ERROR None))
        ∧ ∀ plaintext, oncomplete' plaintext = Result plaintext.
Proof.
  intros Hmode Hpub Hpriv Hdata Hid Hb64 jo Hjson Hbytes Hne Htext Hparse self.
  subst self jo.
  destruct (encrypt_active id0 priv pub mode data Hmode Hpub Hdata) as (k & Henc & Hk).
  exists k, (Error (MslCryptoException ENCRYPT_ERROR None)).
  split; [exact Henc|]. split.
  - rewrite Hk, (create_key_id id0 VNull ciphertext Hid), Hjson. cbn. by rewrite Hbytes.
  - rewrite decrypt_active by done. rewrite Htext. cbn [mbind completion_bind].
    rewrite Hparse.
    destruct (V1_round_trip_hint_V1 Hb64 id0 VNull ciphertext Hid) as (e' & -> & _ & Hkid & _ & Hct);
      [by left|].
    rewrite Hkid, Hct. cbn. rewrite String.eqb_refl. cbn.
    eexists. split; reflexivity.
Qed.

Lemma init_wrapTransform_active id0 priv pub mode :
  mode = WRAP_UNWRAP_OAEP ∨ mode = WRAP_UNWRAP_PKCS1 →
  wrapTransform (RsaCryptoContext_init id0 priv pub mode)
  = Algorithm (if Mode_eqb mode WRAP_UNWRAP_PKCS1 then RSAES else RSA_OAEP).
Proof. by intros [-> | ->]. Qed.

(** In a wrap/unwrap mode, [wrap] without a public key fails with the
    wrap-not-supported error; with one it hands the raw material of the key
    to the provider's [wrapKey], in [jwk] format, with the raw public key
    and the mode's transform (OAEP or PKCS#1); the provider's bytes are the
    result, its rejection the wrap error. *)
Theorem wrap_active_mode (id0 : string) (priv pub : option KeyHandle) (mode : Mode)
    (key : KeyHandle) :
  mode = WRAP_UNWRAP_OAEP ∨ mode = WRAP_UNWRAP_PKCS1 →
  let self := RsaCryptoContext_init id0 priv pub mode in
  (ToBoolean (extract_rawKey pub) = false →
   wrap self key = Error (MslCryptoException WRAP_NOT_SUPPORTED None))
  ∧ (ToBoolean (extract_rawKey pub) = true →
     ∃ oncomplete,
       wrap self key
       = Await (mslCrypto_wrapKey "jwk" (rawKey key) (extract_rawKey pub)
                  (Algorithm (if Mode_eqb mode WRAP_UNWRAP_PKCS1 then RSAES else RSA_OAEP)))
           oncomplete (Error (MslCryptoException WRAP_ERROR None))
       ∧ ∀ wrapped, oncomplete wrapped = Result wrapped).
Proof.
  intros Hmode self. subst self. unfold wrap.
  rewrite init_wrapTransform_active by done.
  cbn [publicKey RsaCryptoContext_init is_NULL_OP orb].
  split; intros ->; cbn; [reflexivity|]. eexists. split; reflexivity.
Qed.

(** In the sign/verify mode, [sign] without a private key and [verify]
    without a public key fail with the not-supported error of the
    operation; and a signature that the signature envelope codec refuses
    makes [verify] deliver the codec's exception as it is, with no call to
    the provider. *)
Theorem sign_verify_failures (id0 : string) (priv pub : option KeyHandle)
    (data signature : list byte) :
  let self := RsaCryptoContext_init id0 priv pub SIGN_VERIFY in
  (ToBoolean (extract_rawKey priv) = false →
   sign self data = Error (MslCryptoException SIGN_NOT_SUPPORTED None))
  ∧ (ToBoolean (extract_rawKey pub) = false →
     verify self data signature = Error (MslCryptoException VERIFY_NOT_SUPPORTED None))
  ∧ (∀ e, ToBoolean (extract_rawKey pub) = true →
          MslSignatureEnvelope_parse signature = Throw e →
          verify self data signature = Error e).
Proof.
  cbn. unfold sign, verify. cbn.
  repeat split.
  - by intros ->.
  - by intros ->.
  - intros e -> ->. reflexivity.
Qed.

(** In the sign/verify mode with both keys, [sign] hands the data to the
    provider's [sign] with the raw private key and delivers the bytes of
    the signature envelope made of the answer; when the codec reads those
    bytes back as that signature, [verify] hands exactly the provider's
    signature and the data to the provider's [verify] with the raw public
    key, and delivers the provider's answer. *)
Theorem sign_then_verify (id0 : string) (priv pub : option KeyHandle)
    (data hash bytes : list byte) :
  ToBoolean (extract_rawKey priv) = true →
  ToBoolean (extract_rawKey pub) = true →
  MslSignatureEnvelope_create hash = Return bytes →
  MslSignatureEnvelope_parse bytes = Return hash →
  let self := RsaCryptoContext_init id0 priv pub SIGN_VERIFY in
  ∃ oncomplete,
    sign self data
    = Await (mslCrypto_sign (Algorithm RSASSA_SHA256) (extract_rawKey priv) data)
        oncomplete (Error (MslCryptoException SIGNATURE_ERROR None))
    ∧ oncomplete hash = Result bytes
    ∧ ∃ oncomplete',
        verify self data bytes
        = Await (mslCrypto_verify (Algorithm RSASSA_SHA256) (extract_rawKey pub) hash data)
            oncomplete' (Error (MslCryptoException SIGNATURE_ERROR None))
        ∧ ∀ valid, oncomplete' valid = Result valid.
Proof.
  intros Hpriv Hpub Hcreate Hparse self. subst self.
  unfold sign, verify. cbn. rewrite Hpriv, Hpub, Hparse. cbn.
  eexists. split; [reflexivity|]. cbn. rewrite Hcreate.
  split; [reflexivity|]. eexists. split; reflexivity.
Qed.

End ContextFurther.

(** ** unwrap *)

Section UnwrapProperties.
Context `{KeyCollaborators}.

(** A context that is not in a wrap/unwrap mode, or that holds no private
    key, fails every [unwrap] with the unwrap-not-supported error, with no
    call to the provider. *)
Theorem unwrap_unavailable (id0 : string) (priv pub : option KeyHandle) (mode : Mode)
    (data : list byte) (algo0 usages : value) :
  (mode ≠ WRAP_UNWRAP_OAEP ∧ mode ≠ WRAP_UNWRAP_PKCS1)
  ∨ ToBoolean (extract_rawKey priv) = false →
  unwrap (RsaCryptoContext_init id0 priv pub mode) data algo0 usages
  = UnwrapError (UnwrapCryptoException UNWRAP_NOT_SUPPORTED).
Proof.
  intros [[Hoaep Hpkcs] | Hpriv]; unfold unwrap.
  - by rewrite init_wrapTransform_inactive.
  - cbn [privateKey RsaCryptoContext_init]. rewrite Hpriv. by rewrite orb_true_r.
Qed.

(** In a wrap/unwrap mode with a private key, [unwrap] hands the data to
    the provider's [unwrapKey] (format [jwk], the raw private key, the
    mode's transform, the target algorithm and usages, not extractable).
    The raw key that comes back is given to the key constructor its [type]
    names: [secret], [public] or [private]; any other or missing [type] is
    the unsupported-key error, a raw key that is null a [TypeError], and a
    rejection of the provider the unwrap error. *)
Theorem unwrap_constructs_key (id0 : string) (priv pub : option KeyHandle) (mode : Mode)
    (data : list byte) (algo0 usages : value) :
  mode = WRAP_UNWRAP_OAEP ∨ mode = WRAP_UNWRAP_PKCS1 →
  ToBoolean (extract_rawKey priv) = true →
  ∃ oncomplete,
    unwrap (RsaCryptoContext_init id0 priv pub mode) data algo0 usages
    = UnwrapAwait
        {| unwrap_format := "jwk"; unwrap_data := data;
           unwrap_key := extract_rawKey priv;
           unwrap_transform :=
             Algorithm (if Mode_eqb mode WRAP_UNWRAP_PKCS1 then RSAES else RSA_OAEP);
           unwrap_algo := algo0; unwrap_extractable := false;
           unwrap_usages := usages |}
        oncomplete (UnwrapError (UnwrapCryptoException UNWRAP_ERROR))
    ∧ (∀ raw type key,
         Get raw "type" = Return (VStr type) →
         (type = "secret" ∧ CipherKey_create raw = Return key
          ∨ type = "public" ∧ PublicKey_create raw = Return key
          ∨ type = "private" ∧ PrivateKey_create raw = Return key) →
         oncomplete raw = UnwrapResult key)
    ∧ (∀ raw type,
         Get raw "type" = Return type →
         strict_eq_string type "secret" = false →
         strict_eq_string type "public" = false →
         strict_eq_string type "private" = false →
         oncomplete raw = UnwrapError (UnwrapCryptoException UNSUPPORTED_KEY))
    ∧ oncomplete VNull = UnwrapError (Thrown TypeError).
Proof.
  intros Hmode Hpriv. exists constructKey. split.
  - unfold unwrap. rewrite init_wrapTransform_active by done.
    cbn [privateKey RsaCryptoContext_init is_NULL_OP orb]. by rewrite Hpriv.
  - repeat split.
    + intros raw type key Hget Hcases. unfold constructKey. rewrite Hget.
      destruct Hcases as [[-> ->] | [[-> ->] | [-> ->]]]; reflexivity.
    + intros raw type Hget Hs Hp Hv. unfold constructKey. by rewrite Hget, Hs, Hp, Hv.
Qed.

End UnwrapProperties.

(** ** Closed instances of the further properties *)

Section FurtherExamples.
#[local] Existing Instance reference_envelope_collaborators.
#[local] Existing Instance reference_context_collaborators.
#[local] Existing Instance reference_key_collaborators.


(** A version 1 object with [ciphertext] removed. *)
Lemma parse_V1_rejects_ill_typed_members_witness :
  MslCiphertextEnvelope_parse
    (VObject (<[KEY_KEY_ID := VStr "k"]> (<[KEY_SHA256 := VStr "AA=="]> ∅))) VNull
  = Throw (MslEncodingException JSON_PARSE_ERROR).
Proof.
  apply (parse_V1_rejects_ill_typed_members
           (<[KEY_KEY_ID := VStr "k"]> (<[KEY_SHA256 := VStr "AA=="]> ∅)) VNull).
  - vm_compute. reflexivity.
  - right. right. left. vm_compute. reflexivity.
Defined.

(** [{"version":2,"cipherspec":"UNKNOWN"}]: no [ciphertext]. *)
Lemma parse_V2_rejects_ill_typed_members_witness :
  MslCiphertextEnvelope_parse
    (VObject (<[KEY_VERSION := VNum 2]> (<[KEY_CIPHERSPEC := VStr "UNKNOWN"]> ∅))) VNull
  = Throw (MslEncodingException JSON_PARSE_ERROR).
Proof.
  apply (parse_V2_rejects_ill_typed_members
           (<[KEY_VERSION := VNum 2]> (<[KEY_CIPHERSPEC := VStr "UNKNOWN"]> ∅)) VNull).
  - vm_compute. reflexivity.
  - vm_compute. reflexivity.
  - right. right. vm_compute. reflexivity.
Defined.

(** The string ["1"] as hint. *)
Lemma parse_unsupported_hint_witness :
  MslCiphertextEnvelope_parse
    (VObject (<[KEY_KEY_ID := VStr "k"]> (<[KEY_CIPHERTEXT := VStr "AQ=="]>
       (<[KEY_SHA256 := VStr "AA=="]> ∅)))) (VStr "1")
  = Throw (MslCryptoException UNSUPPORTED_CIPHERTEXT_ENVELOPE None).
Proof.
  apply (parse_unsupported_hint
           (<[KEY_KEY_ID := VStr "k"]> (<[KEY_CIPHERTEXT := VStr "AQ=="]>
              (<[KEY_SHA256 := VStr "AA=="]> ∅))) (VStr "1")); reflexivity.
Defined.

(** The empty object fails with the JSON-parse encoding error, an
    [MslException]. *)
Lemma parse_failures_witness :
  let e := MslEncodingException JSON_PARSE_ERROR in
  MslCiphertextEnvelope_parse (VObject ∅) VNull = Throw e
  ∧ (e = MslEncodingException JSON_PARSE_ERROR
     ∨ e = MslCryptoException UNIDENTIFIED_CIPHERTEXT_ENVELOPE None
     ∨ e = MslCryptoException UNSUPPORTED_CIPHERTEXT_ENVELOPE None
     ∨ e = MslCryptoException UNIDENTIFIED_CIPHERSPEC None
     ∨ ∃ cause, e = MslCryptoException CIPHERTEXT_ENVELOPE_PARSE_ERROR (Some cause)
         ∧ (base64_decode (text_of (default VUndefined ((∅ : gmap string value) !! KEY_IV)))
            = Throw cause
            ∨ base64_decode
                (text_of (default VUndefined ((∅ : gmap string value) !! KEY_CIPHERTEXT)))
              = Throw cause))
  ∧ instanceof_MslException e = true.
Proof.
  intros e.
  assert (Hp : MslCiphertextEnvelope_parse (VObject ∅) VNull = Throw e)
    by (vm_compute; reflexivity).
  split; [exact Hp|].
  exact (parse_failures ∅ VNull e Hp).
Defined.

(** A [ciphertext] text that is not base64. *)
Lemma parse_V1_base64_failure_witness :
  MslCiphertextEnvelope_parse
    (VObject (<[KEY_KEY_ID := VStr "k"]> (<[KEY_CIPHERTEXT := VStr "!"]>
       (<[KEY_SHA256 := VStr "AA=="]> ∅)))) VNull
  = Throw (MslCryptoException CIPHERTEXT_ENVELOPE_PARSE_ERROR (Some OtherError)).
Proof.
  apply (parse_V1_base64_failure
           (<[KEY_KEY_ID := VStr "k"]> (<[KEY_CIPHERTEXT := VStr "!"]>
              (<[KEY_SHA256 := VStr "AA=="]> ∅))) VNull "k" "" "!" "AA==" OtherError).
  - vm_compute. reflexivity.
  - vm_compute. reflexivity.
  - vm_compute. reflexivity.
  - vm_compute. reflexivity.
  - right. split; vm_compute; reflexivity.
Defined.

(** A [keyid] that is the recognized cipher specification, under the
    version 1 hint: the envelope is a version 2 envelope. *)
Lemma parse_V1_hint_key_id_witness :
  let jo := VObject (<[KEY_KEY_ID := VStr "AES/CBC/PKCS5Padding"]>
              (<[KEY_CIPHERTEXT := VStr "AQ=="]> (<[KEY_SHA256 := VStr "AA=="]> ∅))) in
  let e := {| version := V2; keyId := None; cipherSpec := Some "AES/CBC/PKCS5Padding";
              iv := VUndefined; ciphertext := [x01] |} in
  MslCiphertextEnvelope_parse jo (VNum (Version_number V1)) = Return e
  ∧ ∃ k, Get jo KEY_KEY_ID = Return (VStr k)
      ∧ (¬ In k (map snd MslConstants_CipherSpec)
           ∧ version e = V1 ∧ keyId e = Some k ∧ cipherSpec e = None
         ∨ In k (map snd MslConstants_CipherSpec)
           ∧ version e = V2 ∧ keyId e = None ∧ cipherSpec e = Some k).
Proof.
  intros jo e.
  assert (Hp : MslCiphertextEnvelope_parse jo (VNum (Version_number V1)) = Return e)
    by (vm_compute; reflexivity).
  split; [exact Hp|].
  exact (parse_V1_hint_key_id jo e Hp).
Defined.

Lemma reference_not_spec (k : string) :
  String.eqb "AES/CBC/PKCS5Padding" k = false →
  ¬ In k (map snd (@MslConstants_CipherSpec reference_envelope_collaborators)).
Proof.
  intros Hne [Heq | []]. cbn in Heq. subst k. by rewrite String.eqb_refl in Hne.
Qed.

Lemma V1_round_trip_hinted_witness :
  ∃ e e',
    MslCiphertextEnvelope_create "keyid" (VUint8Array [x07; x08]) [x01] = Return e
    ∧ version e = V1
    ∧ MslCiphertextEnvelope_parse (VObject (toJSON e)) (VNum (Version_number V1)) = Return e'
    ∧ version e' = V1
    ∧ keyId e' = Some "keyid"
    ∧ iv_bytes (iv e') = Some [x07; x08]
    ∧ ciphertext e' = [x01].
Proof.
  apply (V1_round_trip_hinted reference_decode_encode "keyid" (VUint8Array [x07; x08]) [x01]
           (VNum (Version_number V1))).
  - apply reference_not_spec. reflexivity.
  - right. exists [x07; x08]. split; [reflexivity|]. vm_compute. discriminate.
  - right. right. reflexivity.
Defined.

Lemma V2_round_trip_witness :
  ∃ e e',
    MslCiphertextEnvelope_create "AES/CBC/PKCS5Padding" (VUint8Array [x07; x08]) [x01]
    = Return e
    ∧ version e = V2
    ∧ MslCiphertextEnvelope_parse (VObject (toJSON e)) VNull = Return e'
    ∧ version e' = V2
    ∧ keyId e' = None
    ∧ cipherSpec e' = Some "AES/CBC/PKCS5Padding"
    ∧ iv_bytes (iv e') = Some [x07; x08]
    ∧ ciphertext e' = [x01].
Proof.
  apply (V2_round_trip reference_decode_encode "AES/CBC/PKCS5Padding"
           (VUint8Array [x07; x08]) [x01]).
  - left. reflexivity.
  - reflexivity.
  - discriminate.
  - right. exists [x07; x08]. split; [reflexivity|]. vm_compute. discriminate.
Defined.

Lemma encrypt_decrypt_pass_through_witness :
  encrypt (RsaCryptoContext_init "rsa" None None SIGN_VERIFY) [x01; x02] = Result [x01; x02]
  ∧ decrypt (RsaCryptoContext_init "rsa" None None SIGN_VERIFY) [x01; x02]
    = Result [x01; x02].
Proof.
  apply (encrypt_decrypt_pass_through "rsa" None None SIGN_VERIFY [x01; x02]); discriminate.
Defined.

Lemma encrypt_decrypt_missing_key_witness :
  encrypt (RsaCryptoContext_init "rsa" None None ENCRYPT_DECRYPT_OAEP) [x01]
  = Error (MslCryptoException ENCRYPT_NOT_SUPPORTED None)
  ∧ decrypt (RsaCryptoContext_init "rsa" None None ENCRYPT_DECRYPT_OAEP) []
    = Error (MslCryptoException DECRYPT_NOT_SUPPORTED None).
Proof.
  split.
  - apply (encrypt_decrypt_missing_key "rsa" None None ENCRYPT_DECRYPT_OAEP [x01]);
      [left|]; reflexivity.
  - apply (encrypt_decrypt_missing_key "rsa" None None ENCRYPT_DECRYPT_OAEP []);
      [left|]; reflexivity.
Defined.

Lemma decrypt_empty_unchanged_witness :
  decrypt (RsaCryptoContext_init "rsa" (Some sample_key) None ENCRYPT_DECRYPT_PKCS1) []
  = Result [].
Proof.
  apply (decrypt_empty_unchanged "rsa" (Some sample_key) None ENCRYPT_DECRYPT_PKCS1);
    [right|]; reflexivity.
Defined.

Lemma encrypt_delivers_envelope_witness :
  ∃ oncomplete,
    encrypt (RsaCryptoContext_init "rsa" None (Some sample_key) ENCRYPT_DECRYPT_OAEP) [x2a]
    = Await (mslCrypto_encrypt (Algorithm RSA_OAEP) (VObject ∅) [x2a])
        oncomplete (Error (MslCryptoException ENCRYPT_ERROR None))
    ∧ ∀ ciphertext json bytes,
        JSON_stringify
          (VObject (<[KEY_SHA256 := VStr "AA=="]>
             (<[KEY_CIPHERTEXT := VStr (base64_encode (VUint8Array ciphertext))]>
                (<[KEY_KEY_ID := VStr "rsa"]> ∅)))) = Return json →
        textEncoding_getBytes json = Return bytes →
        oncomplete ciphertext = Result bytes.
Proof.
  apply (encrypt_delivers_envelope "rsa" None (Some sample_key) ENCRYPT_DECRYPT_OAEP [x2a]).
  - left. reflexivity.
  - reflexivity.
  - discriminate.
  - apply reference_not_spec. reflexivity.
Defined.

Lemma decrypt_matching_key_id_witness :
  ∃ oncomplete,
    decrypt (RsaCryptoContext_init "rsa" (Some sample_key) None ENCRYPT_DECRYPT_OAEP)
      (list_byte_of_string (sample_envelope_text "rsa"))
    = Await (mslCrypto_decrypt (Algorithm RSA_OAEP) (VObject ∅) [x01])
        oncomplete (Error (MslCryptoException DECRYPT_ERROR None))
    ∧ ∀ plaintext, oncomplete plaintext = Result plaintext.
Proof.
  eapply (decrypt_matching_key_id "rsa" (Some sample_key) None ENCRYPT_DECRYPT_OAEP
            (list_byte_of_string (sample_envelope_text "rsa")) _ _
            {| version := V1; keyId := Some "rsa"; cipherSpec := None;
               iv := VUndefined; ciphertext := [x01] |}).
  - left. reflexivity.
  - reflexivity.
  - discriminate.
  - vm_compute. reflexivity.
  - vm_compute. reflexivity.
  - vm_compute. reflexivity.
  - vm_compute. reflexivity.
  - apply reference_not_spec. reflexivity.
Defined.

(** A context whose identity is the cipher specification, given the
    envelope that carries that identity. *)
Lemma decrypt_cipher_spec_identity_witness :
  decrypt (RsaCryptoContext_init "AES/CBC/PKCS5Padding" (Some sample_key) None
             ENCRYPT_DECRYPT_OAEP)
    (list_byte_of_string (sample_envelope_text "AES/CBC/PKCS5Padding"))
  = Error (MslCryptoException ENVELOPE_KEY_ID_MISMATCH None).
Proof.
  eapply (decrypt_cipher_spec_identity "AES/CBC/PKCS5Padding" (Some sample_key) None
            ENCRYPT_DECRYPT_OAEP
            (list_byte_of_string (sample_envelope_text "AES/CBC/PKCS5Padding"))).
  - left. reflexivity.
  - reflexivity.
  - discriminate.
  - vm_compute. reflexivity.
  - vm_compute. reflexivity.
  - vm_compute. reflexivity.
  - left. reflexivity.
Defined.

(** The text [oops] is no JSON. *)
Lemma decrypt_unreadable_input_witness :
  decrypt (RsaCryptoContext_init "rsa" (Some sample_key) None ENCRYPT_DECRYPT_OAEP)
    (list_byte_of_string "oops")
  = Error (MslCryptoException CIPHERTEXT_ENVELOPE_PARSE_ERROR (Some SyntaxError)).
Proof.
  pose proof (decrypt_unreadable_input "rsa" (Some sample_key) None ENCRYPT_DECRYPT_OAEP
                (list_byte_of_string "oops")
                (or_introl eq_refl) eq_refl) as P.
  cbv zeta in P. destruct P as [P _]; [discriminate|].
  apply (P SyntaxError). vm_compute. reflexivity.
Defined.

Lemma encrypt_then_decrypt_witness :
  let self := RsaCryptoContext_init "rsa" (Some sample_key) (Some sample_key)
                ENCRYPT_DECRYPT_OAEP in
  let bytes := list_byte_of_string (sample_envelope_text "rsa") in
  ∃ oncomplete onerror,
    encrypt self [x2a]
    = Await (mslCrypto_encrypt (transform self) (VObject ∅) [x2a]) oncomplete onerror
    ∧ oncomplete [x01] = Result bytes
    ∧ ∃ oncomplete',
        decrypt self bytes
        = Await (mslCrypto_decrypt (transform self) (VObject ∅) [x01])
            oncomplete' (Error (MslCryptoException DECRYPT_ERROR None))
        ∧ ∀ plaintext, oncomplete' plaintext = Result plaintext.
Proof.
  intros self bytes.
  eapply (encrypt_then_decrypt "rsa" (Some sample_key) (Some sample_key)
            ENCRYPT_DECRYPT_OAEP [x2a] [x01] _ bytes).
  - left. reflexivity.
  - reflexivity.
  - reflexivity.
  - discriminate.
  - apply reference_not_spec. reflexivity.
  - exact reference_decode_encode.
  - vm_compute. reflexivity.
  - vm_compute. reflexivity.
  - discriminate.
  - vm_compute. reflexivity.
  - vm_compute. reflexivity.
Defined.

Lemma wrap_active_mode_witness :
  ∃ oncomplete,
    wrap (RsaCryptoContext_init "rsa" None (Some sample_key) WRAP_UNWRAP_PKCS1)
      {| rawKey := VStr "key material" |}
    = Await (mslCrypto_wrapKey "jwk" (VStr "key material") (VObject ∅) (Algorithm RSAES))
        oncomplete (Error (MslCryptoException WRAP_ERROR None))
    ∧ ∀ wrapped, oncomplete wrapped = Result wrapped.
Proof.
  pose proof (wrap_active_mode "rsa" None (Some sample_key) WRAP_UNWRAP_PKCS1
                {| rawKey := VStr "key material" |} (or_intror eq_refl)) as P.
  cbv zeta in P. destruct P as [_ P]. apply P. reflexivity.
Defined.

Lemma sign_then_verify_witness :
  let self := RsaCryptoContext_init "rsa" (Some sample_key) (Some sample_key) SIGN_VERIFY in
  ∃ oncomplete,
    sign self [x2a]
    = Await (mslCrypto_sign (Algorithm RSASSA_SHA256) (VObject ∅) [x2a])
        oncomplete (Error (MslCryptoException SIGNATURE_ERROR None))
    ∧ oncomplete [x05] = Result [x05]
    ∧ ∃ oncomplete',
        verify self [x2a] [x05]
        = Await (mslCrypto_verify (Algorithm RSASSA_SHA256) (VObject ∅) [x05] [x2a])
            oncomplete' (Error (MslCryptoException SIGNATURE_ERROR None))
        ∧ ∀ valid, oncomplete' valid = Result valid.
Proof.
  apply (sign_then_verify "rsa" (Some sample_key) (Some sample_key) [x2a] [x05] [x05]);
    reflexivity.
Defined.

Lemma unwrap_unavailable_witness :
  unwrap (RsaCryptoContext_init "rsa" None (Some sample_key) WRAP_UNWRAP_OAEP)
    [x01] VNull VNull
  = UnwrapError (UnwrapCryptoException UNWRAP_NOT_SUPPORTED).
Proof.
  apply (unwrap_unavailable "rsa" None (Some sample_key) WRAP_UNWRAP_OAEP [x01] VNull VNull).
  right. reflexivity.
Defined.

(** A raw key of type [secret] comes back as a key handle, one of type
    [bogus] as the unsupported-key error. *)
Lemma unwrap_constructs_key_witness :
  ∃ oncomplete,
    unwrap (RsaCryptoContext_init "rsa" (Some sample_key) None WRAP_UNWRAP_OAEP)
      [x01] VNull VNull
    = UnwrapAwait
        {| unwrap_format := "jwk"; unwrap_data := [x01]; unwrap_key := VObject ∅;
           unwrap_transform := Algorithm RSA_OAEP; unwrap_algo := VNull;
           unwrap_extractable := false; unwrap_usages := VNull |}
        oncomplete (UnwrapError (UnwrapCryptoException UNWRAP_ERROR))
    ∧ oncomplete (VObject {["type" := VStr "secret"]})
      = UnwrapResult {| rawKey := VObject {["type" := VStr "secret"]} |}
    ∧ oncomplete (VObject {["type" := VStr "bogus"]})
      = UnwrapError (UnwrapCryptoException UNSUPPORTED_KEY).
Proof.
  destruct (unwrap_constructs_key "rsa" (Some sample_key) None WRAP_UNWRAP_OAEP
              [x01] VNull VNull (or_introl eq_refl) eq_refl)
    as (k & Hk & Hkey & Hother & _).
  exists k. split; [exact Hk|]. split.
  - apply (Hkey _ "secret"); [reflexivity|]. left. split; reflexivity.
  - apply (Hother _ (VStr "bogus")); reflexivity.
Defined.

End FurtherExamples.
